(** * Callback validation of dash (dash/_validate.py)

    A shallow embedding of the declaration-time validators
    [validate_callback], [validate_callback_args] and of the return-time
    validator [validate_multi_return], with the properties of their
    specification.

    Python exceptions are values of type [exn]; a function that may raise
    returns a [result].  [validate_callback] reads the application object
    (its configuration and its callback map), so it lives in a state and
    error monad over [App]. *)

From Stdlib Require Import String Ascii List Bool ZArith Arith Lia.
Import ListNotations.

Local Open Scope string_scope.
Local Open Scope list_scope.

(** ** Python values *)

(** The values that can sit in the fields of a dependency object. *)
Inductive pyval : Type :=
| PyNone
| PyInt (n : Z)
| PyStr (s : string)
| PyDict (items : list (string * string)).

(** The three classes of [dash.dependencies]. *)
Inductive DepClass : Type := Output | Input | State.

(** An instance of [Output], [Input] or [State].  [component_event] is the
    attribute that [hasattr(arg, "component_event")] probes: it is absent
    ([None]) on the objects the current classes build. *)
Record Dependency : Type := {
  dep_class : DepClass;
  component_id : pyval;
  component_property : pyval;
  component_event : option pyval
}.

(** An element of an argument list: a dependency object or anything else. *)
Inductive pyobj : Type :=
| Dep (d : Dependency)
| Plain (v : pyval).

(** A value passed as [output], [inputs], [state] or returned by a callback:
    a list, a tuple, or a single object. *)
Inductive value : Type :=
| PyList (l : list pyobj)
| PyTuple (l : list pyobj)
| PyObject (o : pyobj).

(** ** Exceptions *)

(** The message templates of the raise sites that share an exception class. *)
Inductive incorrect_type_msg : Type :=
| MustBeListOrTuple        (* "The {} argument `{}` must be a list or tuple" *)
| MustBeOfType             (* "must be of type `dash.dependencies.{}`" *)
| ComponentIdStringOrDict  (* "component_id must be a string or dict" *)
| ComponentPropertyString. (* "component_property must be a string" *)

Inductive duplicate_msg : Type :=
| SameOutputMoreThanOnce      (* "Same output was used more than once" *)
| MultiOutputAlreadyAssigned  (* "Multi output {} contains an `Output` ..." *)
| OutputAlreadyAssigned.      (* "You have already assigned a callback" *)

Inductive return_value_msg : Type :=
| ExpectedListOrTuple          (* "Expected the output type to be a list" *)
| InvalidNumberOfOutputValues. (* "Invalid number of output values" *)

Inductive exn : Type :=
| LayoutIsNotDefined
| IncorrectTypeException (m : incorrect_type_msg)
| InvalidComponentIdError
| NonExistentIdException
| NonExistentPropException
| NonExistentEventException
| MissingInputsException
| SameInputOutputException
| DuplicateCallbackOutput (m : duplicate_msg)
| InvalidCallbackReturnValue (m : return_value_msg)
| TypeError
| KeyError.

Inductive result (A : Type) : Type :=
| Ok (a : A)
| Err (e : exn).

Arguments Ok {A} a.
Arguments Err {A} e.

(** ** The two monads *)

Class Monad (m : Type -> Type) : Type := {
  ret : forall {A}, A -> m A;
  bind : forall {A B}, m A -> (A -> m B) -> m B
}.

Notation "x <- c1 ;; c2" := (bind c1 (fun x => c2))
  (at level 61, c1 at next level, right associativity).
Notation "c1 ;; c2" := (bind c1 (fun _ => c2))
  (at level 61, right associativity).

#[global] Instance result_monad : Monad result := {
  ret := fun A a => Ok a;
  bind := fun A B c k => match c with Ok a => k a | Err e => Err e end
}.

(** The application object as validation sees it:
    [app.config.suppress_callback_exceptions] and the keys of
    [app.callback_map], in insertion order. *)
Record App : Type := {
  suppress_callback_exceptions : bool;
  callback_map : list string
}.

(** A computation that reads or writes the application and may raise; an
    exception leaves the application as it was when it was raised. *)
Definition M (A : Type) : Type := App -> result A * App.

#[global] Instance M_monad : Monad M := {
  ret := fun A a app => (Ok a, app);
  bind := fun A B c k app =>
    match c app with
    | (Ok a, app') => k a app'
    | (Err e, app') => (Err e, app')
    end
}.

Definition gets {A : Type} (f : App -> A) : M A := fun app => (Ok (f app), app).

Definition modify (f : App -> App) : M unit := fun app => (Ok tt, f app).

Definition lift {A : Type} (r : result A) : M A := fun app => (r, app).

Definition raise {A : Type} (e : exn) : M A := lift (Err e).

(** [if c: raise e] *)
Definition raise_if (c : bool) (e : exn) : M unit :=
  if c then raise e else ret tt.

(** ** Python built-ins on strings *)

(** [sub in s] *)
Fixpoint contains (sub s : string) : bool :=
  prefix sub s ||
  match s with
  | EmptyString => false
  | String _ s' => contains sub s'
  end.

(** [s.split(sep)] for a non-empty [sep]: [cur] is the piece being read and
    [skip] the number of characters of a matched separator still to pass. *)
Fixpoint split_from (sep : string) (skip : nat) (cur s : string) : list string :=
  match s with
  | EmptyString => [cur]
  | String c s' =>
      match skip with
      | S k => split_from sep k cur s'
      | O =>
          if prefix sep s
          then cur :: split_from sep (String.length sep - 1) "" s'
          else split_from sep 0 (cur ++ String c "")%string s'
      end
  end.

Definition split (sep s : string) : list string := split_from sep 0 "" s.

(** [x[2:-2]] *)
Definition slice_2_m2 (x : string) : string :=
  substring 2 (String.length x - 4) x.

(** [x.startswith(p)] *)
Definition startswith (p x : string) : bool := prefix p x.

(** Truth value of a string, of a field value, of an argument value. *)
Definition truthy_str (s : string) : bool :=
  match s with EmptyString => false | _ => true end.

Definition truthy_val (v : pyval) : bool :=
  match v with
  | PyNone => false
  | PyInt n => negb (Z.eqb n 0)
  | PyStr s => truthy_str s
  | PyDict items => match items with [] => false | _ => true end
  end.

Definition truthy (v : value) : bool :=
  match v with
  | PyList l | PyTuple l => match l with [] => false | _ => true end
  | PyObject (Dep _) => true
  | PyObject (Plain v) => truthy_val v
  end.

(** [isinstance(v, (list, tuple))] *)
Definition is_list_or_tuple (v : value) : bool :=
  match v with
  | PyList _ | PyTuple _ => true
  | PyObject _ => false
  end.

(** ** The component tree *)

(** Modelled from the spec: the component tree (class [Component] of
    dash/development/base_component.py, which is not under src/) as the
    query capability that validation consumes.  A node exposes its declared
    properties and its wildcard property prefixes; the tree exposes the id of
    its root ([getattr(layout, "id", None)]) and, for [arg_id in layout] and
    [layout[arg_id]], the descendants that carry an id, in traversal
    order. *)
Record Component : Type := {
  available_properties : list string;
  available_wildcard_properties : list string
}.

Record Layout : Type := {
  layout_id : option string;
  layout_root : Component;
  layout_nodes : list (string * Component)
}.

(** [arg_id in layout] *)
Definition layout_contains (arg_id : string) (layout : Layout) : bool :=
  existsb (fun kv => String.eqb (fst kv) arg_id) (layout_nodes layout).

(** [layout[arg_id]] *)
Definition layout_getitem (arg_id : string) (layout : Layout) : result Component :=
  match find (fun kv => String.eqb (fst kv) arg_id) (layout_nodes layout) with
  | Some kv => Ok (snd kv)
  | None => Err KeyError
  end.

(** [arg_id == top_id], where [top_id] is [None] or a string *)
Definition id_eqb (top_id : option string) (arg_id : string) : bool :=
  match top_id with
  | Some t => String.eqb t arg_id
  | None => false
  end.

(** ** Bindings *)

(** A dependency whose [component_id] and [component_property] have passed
    the string checks of [validate_callback_args]: the view of an argument
    that the later stages of [validate_callback] work on. *)
Record Binding : Type := {
  binding_id : string;
  binding_property : string
}.

(** Modelled from the spec: [DashDependency.__str__] of dash/dependencies.py,
    which is not under src/: the identifier and the property joined by the
    separator ".", the character that identifiers may not contain. *)
Definition str (b : Binding) : string :=
  (binding_id b ++ "." ++ binding_property b)%string.

(** Modelled from the spec: [DashDependency.__eq__] and [__hash__] of
    dash/dependencies.py, which is not under src/: two bindings are equal
    when they have the same identifier and the same property, that is the
    same string form. *)
Definition binding_eqb (a b : Binding) : bool := String.eqb (str a) (str b).

(** Modelled from the spec: [create_callback_id] of dash/_utils.py, which is
    not under src/.  A single output is identified by its string form; a
    multi-output by the composite that [validate_callback] takes apart: the
    member strings joined by "..." between two ".." delimiters. *)
Definition create_callback_id (is_multi : bool) (outs : list Binding) : string :=
  if is_multi
  then (".." ++ String.concat "..." (map str outs) ++ "..")%string
  else match outs with
       | o :: _ => str o
       | [] => ""
       end.

(** ** validate_callback_args *)

Definition DepClass_eqb (a b : DepClass) : bool :=
  match a, b with
  | Output, Output | Input, Input | State, State => true
  | _, _ => false
  end.

(** [isinstance(arg, cls)] *)
Definition isinstance (arg : pyobj) (cls : DepClass) : bool :=
  match arg with
  | Dep d => DepClass_eqb (dep_class d) cls
  | Plain _ => false
  end.

(** [hasattr(arg, "component_event")] *)
Definition has_component_event (d : Dependency) : bool :=
  match component_event d with Some _ => true | None => false end.

Definition invalid_characters : list string := ["."].

(** The checks under [if validate_ids:] for one argument (lines 162-212).
    With [layout] being [None], [arg_id not in layout] is a [TypeError]. *)
Definition validate_arg_ids (d : Dependency) (arg_id arg_prop : string)
    (layout : option Layout) : result unit :=
  match layout with
  | None => Err TypeError
  | Some layout =>
      let top_id := layout_id layout in
      if negb (layout_contains arg_id layout) && negb (id_eqb top_id arg_id)
      then Err NonExistentIdException
      else
        component <- (if id_eqb top_id arg_id
                      then Ok (layout_root layout)
                      else layout_getitem arg_id layout) ;;
        if truthy_str arg_prop
           && negb (existsb (String.eqb arg_prop) (available_properties component))
           && negb (existsb (fun w => startswith w arg_prop)
                      (available_wildcard_properties component))
        then Err NonExistentPropException
        else if has_component_event d
        then Err NonExistentEventException
        else Ok tt
  end.

(** The body of [for arg in args:] (lines 124-212). *)
Definition validate_arg (arg : pyobj) (cls : DepClass) (layout : option Layout)
    (validate_ids : bool) : result Binding :=
  match arg with
  | Plain _ => Err (IncorrectTypeException MustBeOfType)
  | Dep d =>
      if negb (isinstance arg cls)
      then Err (IncorrectTypeException MustBeOfType)
      else
        match component_id d with
        | PyStr arg_id =>
            match component_property d with
            | PyStr arg_prop =>
                if existsb (fun x => contains x arg_id) invalid_characters
                then Err InvalidComponentIdError
                else
                  (if validate_ids
                   then validate_arg_ids d arg_id arg_prop layout
                   else Ok tt) ;;
                  Ok {| binding_id := arg_id; binding_property := arg_prop |}
            | _ => Err (IncorrectTypeException ComponentPropertyString)
            end
        | _ => Err (IncorrectTypeException ComponentIdStringOrDict)
        end
  end.

Fixpoint validate_args_loop (args : list pyobj) (cls : DepClass)
    (layout : option Layout) (validate_ids : bool) : result (list Binding) :=
  match args with
  | [] => Ok []
  | arg :: rest =>
      b <- validate_arg arg cls layout validate_ids ;;
      bs <- validate_args_loop rest cls layout validate_ids ;;
      Ok (b :: bs)
  end.

(** [validate_callback_args(args, cls, layout, validate_ids)]; on success
    the checked bindings, in the order of [args]. *)
Definition validate_callback_args (args : value) (cls : DepClass)
    (layout : option Layout) (validate_ids : bool) : result (list Binding) :=
  match args with
  | PyList l | PyTuple l => validate_args_loop l cls layout validate_ids
  | PyObject _ => Err (IncorrectTypeException MustBeListOrTuple)
  end.

(** ** validate_callback *)

(** [for o in output: if o == i: bad = o], from [bad = None] *)
Definition find_bad (outs : list Binding) (i : Binding) : option Binding :=
  fold_left (fun bad o => if binding_eqb o i then Some o else bad) outs None.

(** [for i in inputs:] (lines 50-62).  In single-output mode [outs] is the
    one checked output.  A dependency object is always true, so [if bad:]
    asks whether [bad] was assigned. *)
Fixpoint same_input_output (is_multi : bool) (outs ins : list Binding)
    : result unit :=
  match ins with
  | [] => Ok tt
  | i :: rest =>
      let bad :=
        if is_multi
        then find_bad outs i
        else match outs with
             | output :: _ => if binding_eqb output i then Some output else None
             | [] => None
             end in
      match bad with
      | Some _ => Err SameInputOutputException
      | None => same_input_output is_multi outs rest
      end
  end.

(** [len(set(output))]: the set identifies the outputs with equal string
    forms. *)
Definition len_set (outs : list Binding) : nat :=
  List.length (nodup string_dec (map str outs)).

(** The set [callbacks] of lines 75-82. *)
Definition callbacks (callback_map : list string) : list string :=
  nodup string_dec
    (flat_map
       (fun x => if startswith ".." x then split "..." (slice_2_m2 x) else [x])
       callback_map).

(** [callbacks.intersection(str(y) for y in output)] *)
Definition intersection (callbacks : list string) (outs : list Binding)
    : list string :=
  filter (fun s => existsb (String.eqb s) (map str outs)) callbacks.

Definition nonempty {A : Type} (l : list A) : bool :=
  match l with [] => false | _ => true end.

(** [outputs = output if is_multi else [output]] *)
Definition as_outputs (output : value) : value :=
  match output with
  | PyObject o => PyList [o]
  | _ => output
  end.

(** [layout is None] *)
Definition is_none {A : Type} (o : option A) : bool :=
  match o with None => true | Some _ => false end.

(** [validate_callback(app, layout, output, inputs, state)]: the
    application is the state of the computation. *)
Definition validate_callback (layout : option Layout)
    (output inputs state : value) : M unit :=
  let is_multi := is_list_or_tuple output in
  suppress <- gets suppress_callback_exceptions ;;
  let validate_ids := negb suppress in
  raise_if (is_none layout && validate_ids) LayoutIsNotDefined ;;
  let outputs := as_outputs output in
  outs <- lift (validate_callback_args outputs Output layout validate_ids) ;;
  ins <- lift (validate_callback_args inputs Input layout validate_ids) ;;
  sts <- lift (validate_callback_args state State layout validate_ids) ;;
  raise_if (truthy state && negb (truthy inputs)) MissingInputsException ;;
  lift (same_input_output is_multi outs ins) ;;
  raise_if (is_multi && negb (Nat.eqb (len_set outs) (List.length outs)))
    (DuplicateCallbackOutput SameOutputMoreThanOnce) ;;
  let callback_id := create_callback_id is_multi outs in
  registered <- gets callback_map ;;
  let callbacks := callbacks registered in
  if is_multi
  then
    let dups := intersection callbacks outs in
    raise_if (nonempty dups) (DuplicateCallbackOutput MultiOutputAlreadyAssigned)
  else
    raise_if (existsb (String.eqb callback_id) callbacks)
      (DuplicateCallbackOutput OutputAlreadyAssigned).

(** [callback_map[callback_id] = ...]: a new key enters the map last. *)
Definition add_callback (callback_id : string) (app : App) : App :=
  {| suppress_callback_exceptions := suppress_callback_exceptions app;
     callback_map :=
       if existsb (String.eqb callback_id) (callback_map app)
       then callback_map app
       else callback_map app ++ [callback_id] |}.

(** Modelled from the spec: registration, the caller's part ([Dash.callback]
    of dash/dash.py, which is not under src/): the declaration is validated
    and, when validation returns, its identifier enters the callback map.
    The identifier is built from the outputs as the argument checks see
    them. *)
Definition register_callback (layout : option Layout)
    (output inputs state : value) : M unit :=
  validate_callback layout output inputs state ;;
  suppress <- gets suppress_callback_exceptions ;;
  outs <- lift (validate_callback_args (as_outputs output) Output layout
                  (negb suppress)) ;;
  modify (add_callback (create_callback_id (is_list_or_tuple output) outs)).

(** The outcome of a validation and the application it leaves. *)
Definition outcome {A : Type} (c : M A) (app : App) : result A := fst (c app).
Definition final {A : Type} (c : M A) (app : App) : App := snd (c app).

(** ** validate_multi_return *)

(** [len(v)]: lists, tuples, strings and dicts have a length. *)
Definition len (v : value) : result nat :=
  match v with
  | PyList l | PyTuple l => Ok (List.length l)
  | PyObject (Plain (PyStr s)) => Ok (String.length s)
  | PyObject (Plain (PyDict items)) => Ok (List.length items)
  | PyObject _ => Err TypeError
  end.

(** [validate_multi_return(output, output_value, callback_id)] *)
Definition validate_multi_return (output output_value : value)
    (callback_id : string) : result unit :=
  if negb (is_list_or_tuple output_value)
  then Err (InvalidCallbackReturnValue ExpectedListOrTuple)
  else
    n_value <- len output_value ;;
    n_output <- len output ;;
    if negb (Nat.eqb n_value n_output)
    then Err (InvalidCallbackReturnValue InvalidNumberOfOutputValues)
    else Ok tt.

(** ** Sample objects *)

Definition dep (cls : DepClass) (id prop : string) : pyobj :=
  Dep {| dep_class := cls; component_id := PyStr id;
         component_property := PyStr prop; component_event := None |}.

(** An object as the removed [Event] class built them. *)
Definition legacy (cls : DepClass) (id prop event : string) : Dependency :=
  {| dep_class := cls; component_id := PyStr id;
     component_property := PyStr prop; component_event := Some (PyStr event) |}.

(** A layout with root "root" and one descendant "a". *)
Definition sample_layout : Layout :=
  {| layout_id := Some "root";
     layout_root := {| available_properties := ["children"];
                       available_wildcard_properties := [] |};
     layout_nodes :=
       [("a", {| available_properties := ["value"];
                 available_wildcard_properties := ["data-"] |})] |}.

Definition app_of (suppress : bool) (registered : list string) : App :=
  {| suppress_callback_exceptions := suppress; callback_map := registered |}.

(** What [for x in v] enumerates when [v] is a list or a tuple. *)
Definition elements (v : value) : list pyobj :=
  match v with
  | PyList l | PyTuple l => l
  | PyObject _ => []
  end.

(** The same object without the legacy attribute. *)
Definition without_event (d : Dependency) : Dependency :=
  {| dep_class := dep_class d; component_id := component_id d;
     component_property := component_property d; component_event := None |}.

(** ** Registered bindings, in the words of the specification *)

(** [member_binding x s]: the binding with string form [s] belongs to the
    registered identifier [x].  An identifier that does not begin with the
    ".." delimiter was registered alone and is its only member; a composite
    identifier has as members the pieces that "..." separates between its
    two delimiters. *)
Inductive member_binding (x s : string) : Prop :=
| registered_alone :
    startswith ".." x = false -> s = x -> member_binding x s
| registered_in_composite :
    startswith ".." x = true -> In s (split "..." (slice_2_m2 x)) ->
    member_binding x s.

(** [s] is the string form of a binding of the registered callback set. *)
Definition registered_binding (app : App) (s : string) : Prop :=
  exists x, In x (callback_map app) /\ member_binding x s.

(** The declaration checks of lines 19-71 raise nothing: a layout is there
    when identifiers are checked, the three argument lists pass
    [validate_callback_args], inputs are present when state is, no input is
    among the outputs, and the outputs of a multi-output are pairwise
    distinct. *)
Record passes_declaration_checks (app : App) (layout : option Layout)
    (output inputs state : value) (outs ins sts : list Binding) : Prop := {
  layout_defined :
    is_none layout && negb (suppress_callback_exceptions app) = false;
  outputs_pass :
    validate_callback_args (as_outputs output) Output layout
      (negb (suppress_callback_exceptions app)) = Ok outs;
  inputs_pass :
    validate_callback_args inputs Input layout
      (negb (suppress_callback_exceptions app)) = Ok ins;
  state_pass :
    validate_callback_args state State layout
      (negb (suppress_callback_exceptions app)) = Ok sts;
  inputs_present : sts = [] \/ ins <> [];
  no_input_is_output : forall b, In b ins -> ~ In b outs;
  outputs_distinct : is_list_or_tuple output = true -> NoDup outs
}.

(** The identifier of a checked binding has no ".". *)
Definition dot_free (b : Binding) : Prop := contains "." (binding_id b) = false.

(** The property of a binding is a name: not empty and without ".". *)
Definition plain_property (b : Binding) : Prop :=
  binding_property b <> "" /\ contains "." (binding_property b) = false.

(** A declaration of the callback map, as registration left it: its mode
    and its checked outputs.  It is well formed when it has an output, one
    only in single-output mode, and when the identifiers and properties of
    its outputs are names without ".". *)
Definition Registered : Type := (bool * list Binding)%type.

Definition identifier (r : Registered) : string :=
  create_callback_id (fst r) (snd r).

Definition well_formed_outputs (r : Registered) : Prop :=
  snd r <> [] /\
  (fst r = false -> exists o, snd r = [o]) /\
  Forall dot_free (snd r) /\
  Forall plain_property (snd r).

(** The exception of lines 84-108, by mode. *)
Definition already_assigned (output : value) : exn :=
  DuplicateCallbackOutput
    (if is_list_or_tuple output
     then MultiOutputAlreadyAssigned else OutputAlreadyAssigned).

(** A string in which no "." is followed by a "." or stands last: "..."
    cannot begin inside it, nor across its end. *)
Fixpoint dots_apart (p : string) : bool :=
  match p with
  | EmptyString => true
  | String c q =>
      (if Ascii.eqb c "."
       then match q with
            | EmptyString => false
            | String c' _ => negb (Ascii.eqb c' ".")
            end
       else true) && dots_apart q
  end.

(** A computation that leaves the application as it found it. *)
Definition read_only {A : Type} (c : M A) : Prop :=
  forall app, final c app = app.

(** ** The auxiliary validators *)

(** The exceptions of [check_obsolete], [validate_js_path],
    [validate_index] and [validate_layout]; the [TypeError] of
    [check_obsolete] and [InvalidIndexException] carry their message. *)
Inductive dependency_msg : Type :=
| NotARegisteredLibrary  (* "is not a registered library" *)
| PathNotValid.          (* "is registered but the path requested is not valid" *)

Inductive aux_exn : Type :=
| ObsoleteKwargException (key : string)
| UnexpectedKeyword (message : string)
| DependencyException (m : dependency_msg)
| InvalidIndexException (message : string)
| NoLayoutException
| DuplicateIdError (component_id : string).

Inductive raised (A : Type) : Type :=
| Returns (a : A)
| Raises (e : aux_exn).

Arguments Returns {A} a.
Arguments Raises {A} e.

(** [check_obsolete(kwargs)], on the keys of [kwargs] in their order: the
    body of the loop raises on every path, so the loop ends at the first
    key. *)
Definition check_obsolete (kwargs : list string) : raised unit :=
  match kwargs with
  | [] => Returns tt
  | key :: _ =>
      if existsb (String.eqb key) ["components_cache_max_age"; "static_folder"]
      then Raises (ObsoleteKwargException key)
      else Raises (UnexpectedKeyword
                     ("Dash() got an unexpected keyword argument '" ++ key ++ "'"))
  end.

(** [registered_paths[package_name]] on a dict given by its items. *)
Definition paths_of (registered_paths : list (string * list string))
    (package_name : string) : option (list string) :=
  match find (fun kv => String.eqb (fst kv) package_name) registered_paths with
  | Some kv => Some (snd kv)
  | None => None
  end.

(** [validate_js_path(registered_paths, package_name, path_in_package_dist)] *)
Definition validate_js_path (registered_paths : list (string * list string))
    (package_name path_in_package_dist : string) : raised unit :=
  match paths_of registered_paths package_name with
  | None => Raises (DependencyException NotARegisteredLibrary)
  | Some paths =>
      if negb (existsb (String.eqb path_in_package_dist) paths)
      then Raises (DependencyException PathNotValid)
      else Returns tt
  end.

(** [missing = [i for check, i in checks if not re.compile(check).search(index)]];
    [re_search check index] stands for the regular expression engine. *)
Definition missing_items (re_search : string -> string -> bool)
    (checks : list (string * string)) (index : string) : list string :=
  map snd (filter (fun c => negb (re_search (fst c) index)) checks).

(** [validate_index(name, checks, index)] *)
Definition validate_index (re_search : string -> string -> bool)
    (name : string) (checks : list (string * string)) (index : string)
    : raised unit :=
  let missing := missing_items re_search checks index in
  if nonempty missing
  then
    let plural := if Nat.ltb 1 (List.length missing) then "s" else "" in
    Raises (InvalidIndexException
              ("Missing item" ++ plural ++ " " ++ String.concat ", " missing
               ++ " in " ++ name ++ "."))
  else Returns tt.

(** The ids that [for component in layout_value._traverse()] meets, in
    order.  ([_traverse] belongs to the class [Component], which is not
    under src/; the items it yields that carry no id give [None], which the
    loop skips, so the descendants with an id are all that counts.) *)
Definition traversed_ids (layout_value : Layout) : list string :=
  map fst (layout_nodes layout_value).

(** The loop of lines 421-431: [component_ids] is the set of the ids met so
    far. *)
Fixpoint duplicate_id_loop (component_ids ids : list string) : raised unit :=
  match ids with
  | [] => Returns tt
  | component_id :: rest =>
      if truthy_str component_id
         && existsb (String.eqb component_id) component_ids
      then Raises (DuplicateIdError component_id)
      else duplicate_id_loop (component_id :: component_ids) rest
  end.

(** [validate_layout(layout, layout_value)]; of [layout] only whether it is
    [None] is looked at. *)
Definition validate_layout {A : Type} (layout : option A)
    (layout_value : Layout) : raised unit :=
  match layout with
  | None => Raises NoLayoutException
  | Some _ =>
      let component_ids :=
        match layout_id layout_value with
        | Some layout_id => if truthy_str layout_id then [layout_id] else []
        | None => []
        end in
      duplicate_id_loop component_ids (traversed_ids layout_value)
  end.

(** The ids of the tree, the root first, that count for [validate_layout]:
    the non-empty ones. *)
Definition counted_ids (layout_value : Layout) : list string :=
  filter truthy_str
    (match layout_id layout_value with
     | Some layout_id => [layout_id]
     | None => []
     end ++ traversed_ids layout_value).

(** ** What the argument checks accept *)

(** The component a binding targets: the root of the layout when the id is
    the root's, else the first descendant that carries the id. *)
Definition component_of (layout : Layout) (arg_id : string) : option Component :=
  if id_eqb (layout_id layout) arg_id
  then Some (layout_root layout)
  else match find (fun kv => String.eqb (fst kv) arg_id) (layout_nodes layout)
       with
       | Some kv => Some (snd kv)
       | None => None
       end.

(** The property check lets a name pass: it is empty, or declared, or it
    begins with a declared wildcard. *)
Definition property_known (component : Component) (arg_prop : string) : Prop :=
  arg_prop = "" \/
  In arg_prop (available_properties component) \/
  exists w, In w (available_wildcard_properties component) /\
            startswith w arg_prop = true.

(** An object of class [cls] with a string id without "." and a string
    property. *)
Definition well_typed (cls : DepClass) (arg : pyobj)
    (arg_id arg_prop : string) : Prop :=
  exists d, arg = Dep d /\ dep_class d = cls /\
            component_id d = PyStr arg_id /\
            component_property d = PyStr arg_prop /\
            contains "." arg_id = false.

(** What passes with id checks on: a well typed object without the legacy
    attribute whose id is in the layout and whose property is known to the
    component it targets. *)
Definition accepted_with_ids (cls : DepClass) (layout : Layout)
    (arg : pyobj) : Prop :=
  exists d arg_id arg_prop component,
    arg = Dep d /\ well_typed cls arg arg_id arg_prop /\
    component_of layout arg_id = Some component /\
    property_known component arg_prop /\
    component_event d = None.

(** What passes with id checks off. *)
Definition accepted_without_ids (cls : DepClass) (arg : pyobj) : Prop :=
  exists arg_id arg_prop, well_typed cls arg arg_id arg_prop.

(** The labels of the patterns of [checks] that are not found in [index],
    each as often as it stands in [checks] and in the order of [checks]. *)
Inductive unmatched_labels (re_search : string -> string -> bool)
    (index : string) : list (string * string) -> list string -> Prop :=
| unmatched_nil : unmatched_labels re_search index [] []
| unmatched_found check i checks labels :
    re_search check index = true ->
    unmatched_labels re_search index checks labels ->
    unmatched_labels re_search index ((check, i) :: checks) labels
| unmatched_missing check i checks labels :
    re_search check index = false ->
    unmatched_labels re_search index checks labels ->
    unmatched_labels re_search index ((check, i) :: checks) (i :: labels).

(** A layout with root "root" and the descendants "a" and "b". *)
Definition two_nodes_layout : Layout :=
  {| layout_id := Some "root";
     layout_root := {| available_properties := ["children"];
                       available_wildcard_properties := [] |};
     layout_nodes :=
       [("a", {| available_properties := ["children"];
                 available_wildcard_properties := [] |});
        ("b", {| available_properties := ["value"];
                 available_wildcard_properties := [] |})] |}.

(** * Properties *)

(** ** Running a computation *)

Section Run.
Context {A B : Type}.
Variable app : App.

Lemma outcome_gets (f : App -> A) (k : A -> M B) :
  outcome (x <- gets f ;; k x) app = outcome (k (f app)) app.
Proof. reflexivity. Qed.

Lemma outcome_lift_ok (a : A) (k : A -> M B) :
  outcome (x <- lift (Ok a) ;; k x) app = outcome (k a) app.
Proof. reflexivity. Qed.

Lemma outcome_lift_err (e : exn) (k : A -> M B) :
  outcome (x <- lift (Err e) ;; k x) app = Err e.
Proof. reflexivity. Qed.

Lemma outcome_raise_if_false (e : exn) (k : M B) :
  outcome (raise_if false e ;; k) app = outcome k app.
Proof. reflexivity. Qed.

Lemma outcome_raise_if_true (e : exn) (k : M B) :
  outcome (raise_if true e ;; k) app = Err e.
Proof. reflexivity. Qed.
End Run.

Lemma outcome_raise_if (c : bool) (e : exn) (app : App) :
  outcome (raise_if c e) app = if c then Err e else Ok tt.
Proof. destruct c; reflexivity. Qed.

Create Rewrite HintDb run.
#[local] Hint Rewrite @outcome_gets @outcome_lift_ok @outcome_lift_err
  @outcome_raise_if_false @outcome_raise_if_true outcome_raise_if : run.

(** ** Reading without writing *)

Section ReadOnly.
Context {A B : Type}.

Lemma read_only_ret (a : A) : read_only (ret a : M A).
Proof. intros app; reflexivity. Qed.

Lemma read_only_gets (f : App -> A) : read_only (gets f).
Proof. intros app; reflexivity. Qed.

Lemma read_only_lift (r : result A) : read_only (lift r).
Proof. intros app; reflexivity. Qed.

Lemma read_only_bind (c : M A) (k : A -> M B) :
  read_only c -> (forall a, read_only (k a)) -> read_only (x <- c ;; k x).
Proof.
  intros Hc Hk app. unfold final; simpl.
  specialize (Hc app). unfold final in Hc.
  destruct (c app) as [[a | e] app']; simpl in *; subst app'.
  - apply Hk.
  - reflexivity.
Qed.
End ReadOnly.

Lemma read_only_raise_if (c : bool) (e : exn) : read_only (raise_if c e).
Proof. destruct c; [apply read_only_lift | apply read_only_ret]. Qed.

Create HintDb read_only.
#[local] Hint Resolve read_only_gets read_only_lift read_only_raise_if
  : read_only.

Lemma validate_callback_read_only layout output inputs state :
  read_only (validate_callback layout output inputs state).
Proof.
  unfold validate_callback.
  repeat (apply read_only_bind; [auto with read_only | intros ?]).
  destruct (is_list_or_tuple output); auto with read_only.
Qed.

(** ** The argument checks *)

Section ArgumentChecks.
Variable cls : DepClass.
Variable layout : option Layout.
Variable validate_ids : bool.

Lemma validate_args_loop_cons arg rest :
  validate_args_loop (arg :: rest) cls layout validate_ids =
  match validate_arg arg cls layout validate_ids with
  | Err e => Err e
  | Ok b =>
      match validate_args_loop rest cls layout validate_ids with
      | Err e => Err e
      | Ok bs => Ok (b :: bs)
      end
  end.
Proof.
  simpl. destruct (validate_arg arg cls layout validate_ids); [|reflexivity].
  destruct (validate_args_loop rest cls layout validate_ids); reflexivity.
Qed.

(** The checked bindings are as many as the arguments. *)
Lemma validate_args_loop_length args bs :
  validate_args_loop args cls layout validate_ids = Ok bs ->
  List.length bs = List.length args.
Proof.
  revert bs. induction args as [|arg rest IH]; intros bs H.
  - inversion H; reflexivity.
  - rewrite validate_args_loop_cons in H.
    destruct (validate_arg arg cls layout validate_ids); [|discriminate].
    destruct (validate_args_loop rest cls layout validate_ids) as [bs'|];
      [|discriminate].
    inversion H; subst. simpl. f_equal. apply IH. reflexivity.
Qed.

(** The first argument that fails decides the error. *)
Lemma validate_args_loop_first_error pre arg post bs e :
  validate_args_loop pre cls layout validate_ids = Ok bs ->
  validate_arg arg cls layout validate_ids = Err e ->
  validate_args_loop (pre ++ arg :: post) cls layout validate_ids = Err e.
Proof.
  revert bs. induction pre as [|p pre IH]; intros bs Hpre Harg.
  - rewrite app_nil_l, validate_args_loop_cons, Harg. reflexivity.
  - rewrite <- app_comm_cons, validate_args_loop_cons.
    rewrite validate_args_loop_cons in Hpre.
    destruct (validate_arg p cls layout validate_ids); [|discriminate].
    destruct (validate_args_loop pre cls layout validate_ids) as [bs'|] eqn:E;
      [|discriminate].
    rewrite (IH bs' eq_refl Harg). reflexivity.
Qed.

Lemma validate_callback_args_length args bs :
  validate_callback_args args cls layout validate_ids = Ok bs ->
  List.length bs = List.length (elements args).
Proof.
  destruct args as [l | l | o]; simpl; try discriminate;
    apply validate_args_loop_length.
Qed.

Lemma validate_callback_args_truthy args bs :
  validate_callback_args args cls layout validate_ids = Ok bs ->
  truthy args = nonempty bs.
Proof.
  intros H.
  destruct args as [l | l | o]; simpl in H; [| |discriminate];
    apply validate_args_loop_length in H;
    destruct l, bs; simpl in *; try discriminate; reflexivity.
Qed.
End ArgumentChecks.

(** With id checks on and no layout, no argument passes:
    [arg_id not in layout] is a [TypeError]. *)
Lemma validate_arg_needs_layout arg cls b :
  validate_arg arg cls None true <> Ok b.
Proof.
  unfold validate_arg. destruct arg as [d | v]; [|discriminate].
  destruct (negb (isinstance (Dep d) cls)); [discriminate|].
  destruct (component_id d); try discriminate.
  destruct (component_property d); try discriminate.
  destruct (existsb _ _); discriminate.
Qed.

Lemma validate_callback_args_needs_layout args cls validate_ids bs :
  validate_callback_args args cls None validate_ids = Ok bs ->
  bs <> [] -> validate_ids = false.
Proof.
  intros H Hbs. destruct validate_ids; [exfalso|reflexivity].
  destruct args as [l | l | o]; simpl in H; [| |discriminate];
    (destruct l as [|arg rest];
     [inversion H; subst; apply Hbs; reflexivity|]);
    rewrite validate_args_loop_cons in H;
    destruct (validate_arg arg cls None true) eqn:E;
    try discriminate; apply (validate_arg_needs_layout _ _ _ E).
Qed.

Lemma layout_check_passes args cls layout validate_ids bs :
  validate_callback_args args cls layout validate_ids = Ok bs ->
  bs <> [] -> is_none layout && validate_ids = false.
Proof.
  intros H Hbs. destruct layout as [l|]; [reflexivity|].
  rewrite (validate_callback_args_needs_layout _ _ _ _ H Hbs). reflexivity.
Qed.

(** ** String forms of checked bindings *)

Lemma contains_cons_false sub c s :
  contains sub (String c s) = false ->
  prefix sub (String c s) = false /\ contains sub s = false.
Proof. simpl contains. intros H. apply orb_false_iff in H. exact H. Qed.

Lemma no_dot_cons c s :
  contains "." (String c s) = false -> c <> "."%char /\ contains "." s = false.
Proof.
  intros H. apply contains_cons_false in H. destruct H as [Hp Hs].
  split; [|exact Hs]. intros ->. simpl in Hp. destruct s; discriminate.
Qed.

(** An identifier without "." ends at the first "." of the string form. *)
Lemma dotted_inj id1 id2 p1 p2 :
  contains "." id1 = false -> contains "." id2 = false ->
  (id1 ++ "." ++ p1)%string = (id2 ++ "." ++ p2)%string ->
  id1 = id2 /\ p1 = p2.
Proof.
  revert id2. induction id1 as [|c1 r1 IH]; intros [|c2 r2] H1 H2 E; simpl in E.
  - inversion E. split; reflexivity.
  - apply no_dot_cons in H2. destruct H2 as [H2 _]. inversion E. congruence.
  - apply no_dot_cons in H1. destruct H1 as [H1 _]. inversion E. congruence.
  - apply no_dot_cons in H1. apply no_dot_cons in H2.
    destruct H1 as [_ H1], H2 as [_ H2]. inversion E; subst.
    destruct (IH r2 H1 H2 H3) as [-> ->]. split; reflexivity.
Qed.

Lemma str_inj (a b : Binding) :
  dot_free a -> dot_free b -> str a = str b -> a = b.
Proof.
  destruct a as [ia pa], b as [ib pb]. unfold dot_free, str. simpl.
  intros Ha Hb E. destruct (dotted_inj _ _ _ _ Ha Hb E) as [-> ->]. reflexivity.
Qed.

Lemma validate_arg_dot_free arg cls layout validate_ids b :
  validate_arg arg cls layout validate_ids = Ok b -> dot_free b.
Proof.
  unfold validate_arg, dot_free. destruct arg as [d | v]; [|discriminate].
  destruct (negb (isinstance (Dep d) cls)); [discriminate|].
  destruct (component_id d) as [| |arg_id|]; try discriminate.
  destruct (component_property d) as [| |arg_prop|]; try discriminate.
  simpl existsb. rewrite orb_false_r.
  destruct (contains "." arg_id) eqn:E; [discriminate|].
  destruct validate_ids; [destruct (validate_arg_ids _ _ _ _)|];
    simpl; intros H; inversion H; subst; exact E.
Qed.

Lemma validate_args_loop_dot_free args cls layout validate_ids bs :
  validate_args_loop args cls layout validate_ids = Ok bs ->
  Forall dot_free bs.
Proof.
  revert bs. induction args as [|arg rest IH]; intros bs H.
  - inversion H. constructor.
  - rewrite validate_args_loop_cons in H.
    destruct (validate_arg arg cls layout validate_ids) as [b|] eqn:E;
      [|discriminate].
    destruct (validate_args_loop rest cls layout validate_ids) as [bs'|];
      [|discriminate].
    inversion H; subst. constructor.
    + exact (validate_arg_dot_free _ _ _ _ _ E).
    + apply IH. reflexivity.
Qed.

Lemma validate_callback_args_dot_free args cls layout validate_ids bs :
  validate_callback_args args cls layout validate_ids = Ok bs ->
  Forall dot_free bs.
Proof.
  destruct args as [l | l | o]; simpl; try discriminate;
    apply validate_args_loop_dot_free.
Qed.

Lemma binding_eqb_true_iff (a b : Binding) :
  dot_free a -> dot_free b -> binding_eqb a b = true <-> a = b.
Proof.
  intros Ha Hb. unfold binding_eqb. rewrite String.eqb_eq. split.
  - apply str_inj; assumption.
  - intros ->. reflexivity.
Qed.

(** A single output is checked as a list of one. *)
Lemma single_output_checked o cls layout validate_ids outs :
  validate_callback_args (as_outputs (PyObject o)) cls layout validate_ids
    = Ok outs ->
  exists b, outs = [b].
Proof.
  unfold as_outputs, validate_callback_args.
  intros H. apply validate_args_loop_length in H.
  destruct outs as [|b [|b' outs]]; try discriminate. exists b. reflexivity.
Qed.

(** ** Inputs against outputs *)

Lemma find_bad_spec outs i :
  find_bad outs i = None <-> forall o, In o outs -> binding_eqb o i = false.
Proof.
  unfold find_bad.
  assert (G : forall acc,
             fold_left (fun bad o => if binding_eqb o i then Some o else bad)
               outs acc = None <->
             acc = None /\ forall o, In o outs -> binding_eqb o i = false).
  { induction outs as [|o outs IH]; intros acc; simpl.
    - split; [intros ->; split; [reflexivity | contradiction] | intros [H _]; exact H].
    - rewrite IH. destruct (binding_eqb o i) eqn:E; split.
      + intros [H _]; discriminate.
      + intros [_ H]. specialize (H o (or_introl eq_refl)). congruence.
      + intros [-> H]. split; [reflexivity|]. intros o' [<- | Hin]; auto.
      + intros [-> H]. split; [reflexivity|]. intros o' Hin. apply H. right; exact Hin. }
  rewrite G. split; [intros [_ H]; exact H | intros H; split; [reflexivity | exact H]].
Qed.

Lemma same_input_output_multi outs ins :
  same_input_output true outs ins =
  if existsb (fun i => existsb (fun o => binding_eqb o i) outs) ins
  then Err SameInputOutputException else Ok tt.
Proof.
  induction ins as [|i rest IH]; [reflexivity|]. simpl.
  destruct (existsb (fun o => binding_eqb o i) outs) eqn:E.
  - destruct (find_bad outs i) eqn:F; [reflexivity|].
    apply existsb_exists in E. destruct E as [o [Hin Ho]].
    rewrite (proj1 (find_bad_spec outs i) F o Hin) in Ho. discriminate.
  - destruct (find_bad outs i) eqn:F.
    + assert (N : find_bad outs i = None).
      { apply find_bad_spec. intros o Hin.
        destruct (binding_eqb o i) eqn:B; [|reflexivity].
        rewrite <- E. symmetry. apply existsb_exists. exists o. auto. }
      congruence.
    + exact IH.
Qed.

Lemma same_input_output_single output ins :
  same_input_output false [output] ins =
  if existsb (fun i => binding_eqb output i) ins
  then Err SameInputOutputException else Ok tt.
Proof.
  induction ins as [|i rest IH]; [reflexivity|]. simpl.
  destruct (binding_eqb output i); [reflexivity | exact IH].
Qed.

(** In both modes the loop fails exactly when an input equals an output. *)
Lemma same_input_output_spec is_multi outs ins :
  (is_multi = false -> exists output, outs = [output]) ->
  same_input_output is_multi outs ins =
  if existsb (fun i => existsb (fun o => binding_eqb o i) outs) ins
  then Err SameInputOutputException else Ok tt.
Proof.
  intros Hsingle. destruct is_multi.
  - apply same_input_output_multi.
  - destruct (Hsingle eq_refl) as [output ->].
    rewrite same_input_output_single.
    replace (existsb (fun i => existsb (fun o => binding_eqb o i) [output]) ins)
      with (existsb (fun i => binding_eqb output i) ins); [reflexivity|].
    induction ins as [|i rest IH]; [reflexivity|]. simpl.
    rewrite orb_false_r, IH. reflexivity.
Qed.

(** ** The stages of [validate_callback] *)

(** What lines 36-108 decide from the checked bindings. *)
Lemma validate_callback_outcome app layout output inputs state :
  let validate_ids := negb (suppress_callback_exceptions app) in
  outcome (validate_callback layout output inputs state) app =
  if is_none layout && validate_ids then Err LayoutIsNotDefined else
  match validate_callback_args (as_outputs output) Output layout validate_ids
  with
  | Err e => Err e
  | Ok outs =>
  match validate_callback_args inputs Input layout validate_ids with
  | Err e => Err e
  | Ok ins =>
  match validate_callback_args state State layout validate_ids with
  | Err e => Err e
  | Ok sts =>
      if nonempty sts && negb (nonempty ins)
      then Err MissingInputsException
      else if existsb (fun i => existsb (fun o => binding_eqb o i) outs) ins
      then Err SameInputOutputException
      else if is_list_or_tuple output
              && negb (Nat.eqb (len_set outs) (List.length outs))
      then Err (DuplicateCallbackOutput SameOutputMoreThanOnce)
      else if is_list_or_tuple output
      then if nonempty (intersection (callbacks (callback_map app)) outs)
           then Err (DuplicateCallbackOutput MultiOutputAlreadyAssigned)
           else Ok tt
      else if existsb (String.eqb (create_callback_id false outs))
                (callbacks (callback_map app))
      then Err (DuplicateCallbackOutput OutputAlreadyAssigned)
      else Ok tt
  end end end.
Proof.
  intros validate_ids.
  unfold validate_callback. rewrite outcome_gets. fold validate_ids.
  destruct (is_none layout && validate_ids);
    [apply outcome_raise_if_true | rewrite outcome_raise_if_false].
  destruct (validate_callback_args (as_outputs output) Output layout
              validate_ids) as [outs|e] eqn:Ho;
    [rewrite outcome_lift_ok | apply outcome_lift_err].
  destruct (validate_callback_args inputs Input layout validate_ids)
    as [ins|e] eqn:Hi;
    [rewrite outcome_lift_ok | apply outcome_lift_err].
  destruct (validate_callback_args state State layout validate_ids)
    as [sts|e] eqn:Hs;
    [rewrite outcome_lift_ok | apply outcome_lift_err].
  rewrite (validate_callback_args_truthy _ _ _ _ _ Hs).
  rewrite (validate_callback_args_truthy _ _ _ _ _ Hi).
  destruct (nonempty sts && negb (nonempty ins));
    [apply outcome_raise_if_true | rewrite outcome_raise_if_false].
  rewrite same_input_output_spec.
  2:{ intros Hm. destruct output as [l | l | o]; try discriminate.
      exact (single_output_checked _ _ _ _ _ Ho). }
  destruct (existsb _ ins);
    [apply outcome_lift_err | rewrite outcome_lift_ok].
  destruct (is_list_or_tuple output && _);
    [apply outcome_raise_if_true | rewrite outcome_raise_if_false].
  rewrite outcome_gets.
  destruct (is_list_or_tuple output); apply outcome_raise_if.
Qed.

Lemma validate_callback_after_args app layout output inputs state outs ins sts :
  let validate_ids := negb (suppress_callback_exceptions app) in
  is_none layout && validate_ids = false ->
  validate_callback_args (as_outputs output) Output layout validate_ids
    = Ok outs ->
  validate_callback_args inputs Input layout validate_ids = Ok ins ->
  validate_callback_args state State layout validate_ids = Ok sts ->
  outcome (validate_callback layout output inputs state) app =
  if nonempty sts && negb (nonempty ins)
  then Err MissingInputsException
  else if existsb (fun i => existsb (fun o => binding_eqb o i) outs) ins
  then Err SameInputOutputException
  else if is_list_or_tuple output
          && negb (Nat.eqb (len_set outs) (List.length outs))
  then Err (DuplicateCallbackOutput SameOutputMoreThanOnce)
  else if is_list_or_tuple output
  then if nonempty (intersection (callbacks (callback_map app)) outs)
       then Err (DuplicateCallbackOutput MultiOutputAlreadyAssigned)
       else Ok tt
  else if existsb (String.eqb (create_callback_id false outs))
            (callbacks (callback_map app))
  then Err (DuplicateCallbackOutput OutputAlreadyAssigned)
  else Ok tt.
Proof.
  intros validate_ids Hl Ho Hi Hs.
  rewrite validate_callback_outcome. fold validate_ids.
  rewrite Hl, Ho, Hi, Hs. reflexivity.
Qed.

Lemma existsb_binding_In outs ins :
  Forall dot_free outs -> Forall dot_free ins ->
  existsb (fun i => existsb (fun o => binding_eqb o i) outs) ins = true <->
  exists i, In i ins /\ In i outs.
Proof.
  intros Fo Fi. rewrite Forall_forall in Fo, Fi.
  rewrite existsb_exists. split.
  - intros [i [Hi E]]. apply existsb_exists in E. destruct E as [o [Ho E]].
    apply binding_eqb_true_iff in E; auto. subst o. exists i. auto.
  - intros [i [Hi Ho]]. exists i. split; [exact Hi|].
    apply existsb_exists. exists i. split; [exact Ho|].
    apply binding_eqb_true_iff; auto.
Qed.

(** *** From the argument lists to the checked bindings *)

Lemma validate_arg_fields arg cls layout validate_ids b :
  validate_arg arg cls layout validate_ids = Ok b ->
  exists d, arg = Dep d /\ dep_class d = cls /\
            component_id d = PyStr (binding_id b) /\
            component_property d = PyStr (binding_property b).
Proof.
  unfold validate_arg. destruct arg as [d | v]; [|discriminate].
  unfold isinstance.
  destruct (DepClass_eqb (dep_class d) cls) eqn:C; [|discriminate]. simpl negb.
  destruct (component_id d) as [| |arg_id|] eqn:Eid; try discriminate.
  destruct (component_property d) as [| |arg_prop|] eqn:Eprop;
    try discriminate.
  destruct (existsb _ _); [discriminate|].
  intros H.
  assert (B : b = {| binding_id := arg_id; binding_property := arg_prop |}).
  { destruct validate_ids; [destruct (validate_arg_ids _ _ _ _)|];
      simpl in H; inversion H; reflexivity. }
  subst b. exists d. repeat split; try assumption.
  destruct (dep_class d), cls; (reflexivity || discriminate).
Qed.

Lemma validate_args_loop_nth args cls layout validate_ids bs n arg :
  validate_args_loop args cls layout validate_ids = Ok bs ->
  nth_error args n = Some arg ->
  exists b, nth_error bs n = Some b /\
            validate_arg arg cls layout validate_ids = Ok b.
Proof.
  revert bs n. induction args as [|a rest IH]; intros bs n H Hn.
  - destruct n; discriminate.
  - rewrite validate_args_loop_cons in H.
    destruct (validate_arg a cls layout validate_ids) as [b|] eqn:E;
      [|discriminate].
    destruct (validate_args_loop rest cls layout validate_ids) as [bs'|];
      [|discriminate].
    inversion H; subst. destruct n as [|n]; simpl in *.
    + inversion Hn; subst. exists b. auto.
    + apply IH; auto.
Qed.

Lemma validate_callback_args_nth args cls layout validate_ids bs n d :
  validate_callback_args args cls layout validate_ids = Ok bs ->
  nth_error (elements args) n = Some (Dep d) ->
  exists b, nth_error bs n = Some b /\
            component_id d = PyStr (binding_id b) /\
            component_property d = PyStr (binding_property b).
Proof.
  intros H Hn.
  assert (L : validate_args_loop (elements args) cls layout validate_ids = Ok bs)
    by (destruct args; simpl in *; (assumption || discriminate)).
  destruct (validate_args_loop_nth _ _ _ _ _ _ _ L Hn) as [b [Hb E]].
  exists b. split; [exact Hb|].
  destruct (validate_arg_fields _ _ _ _ _ E) as [d' [Ed [_ [Hid Hprop]]]].
  inversion Ed; subst d'. auto.
Qed.

Lemma validate_callback_args_In args cls layout validate_ids bs d :
  validate_callback_args args cls layout validate_ids = Ok bs ->
  In (Dep d) (elements args) ->
  exists b, In b bs /\
            component_id d = PyStr (binding_id b) /\
            component_property d = PyStr (binding_property b).
Proof.
  intros H Hin. apply In_nth_error in Hin. destruct Hin as [n Hn].
  destruct (validate_callback_args_nth _ _ _ _ _ _ _ H Hn) as [b [Hb F]].
  exists b. split; [exact (nth_error_In _ _ Hb) | exact F].
Qed.

Lemma binding_fields_eq (a b : Binding) :
  PyStr (binding_id a) = PyStr (binding_id b) ->
  PyStr (binding_property a) = PyStr (binding_property b) ->
  a = b.
Proof. destruct a, b; simpl; intros H1 H2; inversion H1; inversion H2; reflexivity. Qed.

(** ** Repeated outputs *)

Lemma nodup_length_le (l : list string) :
  List.length (nodup string_dec l) <= List.length l.
Proof.
  induction l as [|a l IH]; simpl; [lia|].
  destruct (in_dec string_dec a l); simpl; lia.
Qed.

Lemma nodup_length_NoDup (l : list string) :
  List.length (nodup string_dec l) = List.length l <-> NoDup l.
Proof.
  split.
  - induction l as [|a l IH]; simpl; [constructor|].
    destruct (in_dec string_dec a l) as [Hin | Hin]; simpl; intros H.
    + pose proof (nodup_length_le l). lia.
    + constructor; [exact Hin | apply IH; lia].
  - intros H. rewrite (nodup_fixed_point string_dec H). reflexivity.
Qed.

Lemma NoDup_map_str outs :
  Forall dot_free outs -> NoDup outs -> NoDup (map str outs).
Proof.
  induction outs as [|o outs IH]; intros F N; simpl; [constructor|].
  inversion F; subst. inversion N; subst. constructor; [|auto].
  intros Hin. apply in_map_iff in Hin. destruct Hin as [o' [E Ho']].
  rewrite Forall_forall in H2.
  apply str_inj in E; auto. subst o'. contradiction.
Qed.

(** [len(set(output)) != len(output)] on checked outputs. *)
Lemma len_set_spec outs :
  Forall dot_free outs ->
  Nat.eqb (len_set outs) (List.length outs) = true <-> NoDup outs.
Proof.
  intros F. unfold len_set. rewrite Nat.eqb_eq.
  rewrite <- (length_map str outs). rewrite nodup_length_NoDup.
  split; [apply NoDup_map_inv | apply NoDup_map_str; exact F].
Qed.

Lemma validate_args_loop_nth_inv args cls layout validate_ids bs n b :
  validate_args_loop args cls layout validate_ids = Ok bs ->
  nth_error bs n = Some b ->
  exists arg, nth_error args n = Some arg /\
              validate_arg arg cls layout validate_ids = Ok b.
Proof.
  revert bs n. induction args as [|a rest IH]; intros bs n H Hn.
  - inversion H; subst. destruct n; discriminate.
  - rewrite validate_args_loop_cons in H.
    destruct (validate_arg a cls layout validate_ids) as [b0|] eqn:E;
      [|discriminate].
    destruct (validate_args_loop rest cls layout validate_ids) as [bs'|];
      [|discriminate].
    inversion H; subst. destruct n as [|n]; simpl in *.
    + inversion Hn; subst. exists a. auto.
    + apply (IH bs'); auto.
Qed.

Lemma validate_callback_args_In_inv args cls layout validate_ids bs b :
  validate_callback_args args cls layout validate_ids = Ok bs ->
  In b bs ->
  exists d, In (Dep d) (elements args) /\
            component_id d = PyStr (binding_id b) /\
            component_property d = PyStr (binding_property b).
Proof.
  intros H Hin.
  assert (L : validate_args_loop (elements args) cls layout validate_ids = Ok bs)
    by (destruct args; simpl in *; (assumption || discriminate)).
  apply In_nth_error in Hin. destruct Hin as [n Hn].
  destruct (validate_args_loop_nth_inv _ _ _ _ _ _ _ L Hn) as [arg [Ha E]].
  destruct (validate_arg_fields _ _ _ _ _ E) as [d [-> [_ F]]].
  exists d. split; [exact (nth_error_In _ _ Ha) | exact F].
Qed.

(** ** Outputs against the registered callbacks *)

(** The set [callbacks] holds the member bindings of the registered
    identifiers. *)
Lemma callbacks_spec (app : App) (s : string) :
  In s (callbacks (callback_map app)) <-> registered_binding app s.
Proof.
  unfold callbacks, registered_binding. rewrite nodup_In, in_flat_map.
  split; intros [x [Hx Hs]]; exists x; (split; [exact Hx|]).
  - destruct (startswith ".." x) eqn:E.
    + apply registered_in_composite; assumption.
    + destruct Hs as [<- | []]. apply registered_alone; [assumption | reflexivity].
  - destruct Hs as [E Hs | E Hs]; rewrite E; [left; congruence | exact Hs].
Qed.

Lemma nonempty_filter {A : Type} (f : A -> bool) (l : list A) :
  nonempty (filter f l) = true <-> exists a, In a l /\ f a = true.
Proof.
  split.
  - destruct (filter f l) as [|a r] eqn:E; [discriminate|]. intros _.
    exists a. apply filter_In. rewrite E. left; reflexivity.
  - intros [a Ha]. apply filter_In in Ha.
    destruct (filter f l); [contradiction | reflexivity].
Qed.

Lemma intersection_nonempty (app : App) (outs : list Binding) :
  nonempty (intersection (callbacks (callback_map app)) outs) = true <->
  exists y, In y outs /\ registered_binding app (str y).
Proof.
  unfold intersection. rewrite nonempty_filter. split.
  - intros [s [Hs E]]. apply existsb_exists in E. destruct E as [t [Ht E]].
    apply String.eqb_eq in E. subst t.
    apply in_map_iff in Ht. destruct Ht as [y [<- Hy]].
    exists y. split; [exact Hy | apply callbacks_spec; exact Hs].
  - intros [y [Hy R]]. exists (str y). split; [apply callbacks_spec; exact R|].
    apply existsb_exists. exists (str y).
    split; [apply in_map; exact Hy | apply String.eqb_refl].
Qed.

Lemma callback_id_registered (app : App) (callback_id : string) :
  existsb (String.eqb callback_id) (callbacks (callback_map app)) = true <->
  registered_binding app callback_id.
Proof.
  rewrite existsb_exists, <- callbacks_spec. split.
  - intros [s [Hs E]]. apply String.eqb_eq in E. subst s. exact Hs.
  - intros H. exists callback_id. split; [exact H | apply String.eqb_refl].
Qed.

(** A declaration that passes the declaration checks goes on to the
    registered callbacks. *)
Lemma validate_callback_registry app layout output inputs state outs ins sts :
  passes_declaration_checks app layout output inputs state outs ins sts ->
  outcome (validate_callback layout output inputs state) app =
  if is_list_or_tuple output
  then if nonempty (intersection (callbacks (callback_map app)) outs)
       then Err (DuplicateCallbackOutput MultiOutputAlreadyAssigned)
       else Ok tt
  else if existsb (String.eqb (create_callback_id false outs))
            (callbacks (callback_map app))
  then Err (DuplicateCallbackOutput OutputAlreadyAssigned)
  else Ok tt.
Proof.
  intros [Hl Ho Hi Hs Hpresent Hdisj Hdistinct].
  pose proof (validate_callback_args_dot_free _ _ _ _ _ Ho) as Fo.
  pose proof (validate_callback_args_dot_free _ _ _ _ _ Hi) as Fi.
  rewrite (validate_callback_after_args _ _ _ _ _ _ _ _ Hl Ho Hi Hs).
  replace (nonempty sts && negb (nonempty ins)) with false.
  2:{ destruct Hpresent as [-> | Hin]; [reflexivity|].
      destruct ins; [contradiction | symmetry; apply andb_false_r]. }
  replace (existsb (fun i => existsb (fun o => binding_eqb o i) outs) ins)
    with false.
  2:{ symmetry. apply not_true_is_false. intros C.
      apply existsb_binding_In in C; auto. destruct C as [b [Bi Bo]].
      exact (Hdisj b Bi Bo). }
  destruct (is_list_or_tuple output) eqn:Hm; [|reflexivity].
  rewrite (proj2 (len_set_spec outs Fo) (Hdistinct eq_refl)). reflexivity.
Qed.

(** A declaration is accepted only if it passes the declaration checks. *)
Lemma validate_callback_ok_inv app layout output inputs state :
  outcome (validate_callback layout output inputs state) app = Ok tt ->
  exists outs ins sts,
    passes_declaration_checks app layout output inputs state outs ins sts.
Proof.
  rewrite validate_callback_outcome.
  destruct (is_none layout && negb (suppress_callback_exceptions app)) eqn:Hl;
    [discriminate|].
  destruct (validate_callback_args (as_outputs output) Output layout _)
    as [outs|] eqn:Ho; [|discriminate].
  destruct (validate_callback_args inputs Input layout _)
    as [ins|] eqn:Hi; [|discriminate].
  destruct (validate_callback_args state State layout _)
    as [sts|] eqn:Hs; [|discriminate].
  destruct (nonempty sts && negb (nonempty ins)) eqn:Hp; [discriminate|].
  destruct (existsb _ ins) eqn:Hc; [discriminate|].
  destruct (is_list_or_tuple output && _) eqn:Hd; [discriminate|].
  intros _. exists outs, ins, sts.
  pose proof (validate_callback_args_dot_free _ _ _ _ _ Ho) as Fo.
  pose proof (validate_callback_args_dot_free _ _ _ _ _ Hi) as Fi.
  constructor; try assumption.
  - destruct sts; [left; reflexivity|]. right. intros ->. discriminate.
  - intros b Bi Bo. apply not_true_iff_false in Hc. apply Hc.
    apply existsb_binding_In; auto. exists b. auto.
  - intros Hm. rewrite Hm in Hd. simpl in Hd.
    apply negb_false_iff in Hd. apply len_set_spec; assumption.
Qed.

(** ** One argument *)

(** [validate_arg] on an object of the expected class with string fields
    and an identifier without ".". *)
Lemma validate_arg_wellformed d cls layout validate_ids arg_id arg_prop :
  dep_class d = cls ->
  component_id d = PyStr arg_id ->
  component_property d = PyStr arg_prop ->
  contains "." arg_id = false ->
  validate_arg (Dep d) cls layout validate_ids =
  match (if validate_ids
         then validate_arg_ids d arg_id arg_prop layout
         else Ok tt) with
  | Ok _ => Ok {| binding_id := arg_id; binding_property := arg_prop |}
  | Err e => Err e
  end.
Proof.
  intros Hc Hi Hp Hdot. unfold validate_arg, isinstance.
  rewrite Hc, Hi, Hp. simpl existsb. rewrite Hdot.
  replace (DepClass_eqb cls cls) with true by (destruct cls; reflexivity).
  reflexivity.
Qed.

Lemma validate_arg_inv d cls layout validate_ids b :
  validate_arg (Dep d) cls layout validate_ids = Ok b ->
  dep_class d = cls /\
  component_id d = PyStr (binding_id b) /\
  component_property d = PyStr (binding_property b) /\
  contains "." (binding_id b) = false.
Proof.
  intros H. pose proof (validate_arg_dot_free _ _ _ _ _ H) as F.
  destruct (validate_arg_fields _ _ _ _ _ H) as [d' [E [Hc [Hi Hp]]]].
  inversion E; subst d'. auto.
Qed.

(** The event attribute is looked at last, and only under [validate_ids]. *)
Lemma validate_arg_ids_event d arg_id arg_prop layout :
  has_component_event d = true ->
  validate_arg_ids (without_event d) arg_id arg_prop layout = Ok tt ->
  validate_arg_ids d arg_id arg_prop layout = Err NonExistentEventException.
Proof.
  intros Hev. unfold validate_arg_ids. destruct layout as [l|]; [|discriminate].
  destruct (negb (layout_contains arg_id l) && negb (id_eqb (layout_id l) arg_id));
    [discriminate|].
  destruct (if id_eqb (layout_id l) arg_id
            then Ok (layout_root l) else layout_getitem arg_id l)
    as [component|]; simpl; [|discriminate].
  destruct (truthy_str arg_prop && _ && _); [discriminate|].
  rewrite Hev. reflexivity.
Qed.

Lemma validate_arg_event d cls layout validate_ids b :
  has_component_event d = true ->
  validate_arg (Dep (without_event d)) cls layout validate_ids = Ok b ->
  validate_arg (Dep d) cls layout validate_ids =
  if validate_ids then Err NonExistentEventException else Ok b.
Proof.
  intros Hev H. destruct (validate_arg_inv _ _ _ _ _ H) as [Hc [Hi [Hp Hdot]]].
  simpl in Hc, Hi, Hp.
  rewrite (validate_arg_wellformed (without_event d) _ _ _ _ _ Hc Hi Hp Hdot)
    in H.
  rewrite (validate_arg_wellformed d _ _ _ _ _ Hc Hi Hp Hdot).
  destruct validate_ids.
  - destruct (validate_arg_ids (without_event d) _ _ layout) as [[]|] eqn:E;
      [|discriminate].
    rewrite (validate_arg_ids_event _ _ _ _ Hev E). reflexivity.
  - simpl in *. destruct b; simpl in *. inversion H; subst. reflexivity.
Qed.

Lemma validate_args_loop_app pre post cls layout validate_ids bs :
  validate_args_loop pre cls layout validate_ids = Ok bs ->
  validate_args_loop (pre ++ post) cls layout validate_ids =
  match validate_args_loop post cls layout validate_ids with
  | Ok bs' => Ok (bs ++ bs')
  | Err e => Err e
  end.
Proof.
  revert bs. induction pre as [|p pre IH]; intros bs H.
  - inversion H; subst. simpl.
    destruct (validate_args_loop post cls layout validate_ids); reflexivity.
  - rewrite <- app_comm_cons, validate_args_loop_cons.
    rewrite validate_args_loop_cons in H.
    destruct (validate_arg p cls layout validate_ids); [|discriminate].
    destruct (validate_args_loop pre cls layout validate_ids) as [bs0|];
      [|discriminate].
    inversion H; subst. rewrite (IH bs0 eq_refl).
    destruct (validate_args_loop post cls layout validate_ids); reflexivity.
Qed.

Lemma validate_args_loop_app_err pre post cls layout validate_ids e :
  validate_args_loop pre cls layout validate_ids = Err e ->
  validate_args_loop (pre ++ post) cls layout validate_ids = Err e.
Proof.
  induction pre as [|p pre IH]; [discriminate|]. intros H.
  rewrite <- app_comm_cons, validate_args_loop_cons.
  rewrite validate_args_loop_cons in H.
  destruct (validate_arg p cls layout validate_ids); [|exact H].
  destruct (validate_args_loop pre cls layout validate_ids) as [bs0|e0];
    [discriminate|].
  rewrite (IH H). reflexivity.
Qed.

(** ** Property names *)

Lemma validate_arg_ids_empty_property d arg_id layout :
  validate_arg_ids d arg_id "" layout <> Err NonExistentPropException.
Proof.
  unfold validate_arg_ids. destruct layout as [l|]; [|discriminate].
  destruct (negb (layout_contains arg_id l) && negb (id_eqb (layout_id l) arg_id));
    [discriminate|].
  destruct (if id_eqb (layout_id l) arg_id
            then Ok (layout_root l) else layout_getitem arg_id l)
    as [component|e] eqn:E; simpl.
  - destruct (has_component_event d); discriminate.
  - destruct (id_eqb (layout_id l) arg_id); [discriminate|].
    unfold layout_getitem in E.
    destruct (find _ _); [discriminate|]. inversion E. discriminate.
Qed.

Lemma validate_arg_empty_property arg cls layout validate_ids :
  (forall d, arg = Dep d -> component_property d = PyStr "") ->
  validate_arg arg cls layout validate_ids <> Err NonExistentPropException.
Proof.
  intros Hprop. unfold validate_arg. destruct arg as [d | v]; [|discriminate].
  destruct (negb (isinstance (Dep d) cls)); [discriminate|].
  destruct (component_id d) as [| |arg_id|]; try discriminate.
  rewrite (Hprop d eq_refl).
  destruct (existsb _ _); [discriminate|].
  destruct validate_ids; simpl; [|discriminate].
  pose proof (validate_arg_ids_empty_property d arg_id layout) as N.
  destruct (validate_arg_ids d arg_id "" layout); [discriminate | congruence].
Qed.

(** ** The returned value of a multi-output *)

Lemma validate_multi_return_eq output output_value callback_id :
  is_list_or_tuple output = true ->
  validate_multi_return output output_value callback_id =
  if negb (is_list_or_tuple output_value)
  then Err (InvalidCallbackReturnValue ExpectedListOrTuple)
  else if Nat.eqb (List.length (elements output_value))
                  (List.length (elements output))
  then Ok tt
  else Err (InvalidCallbackReturnValue InvalidNumberOfOutputValues).
Proof.
  intros Hm. unfold validate_multi_return.
  destruct output_value as [v | v | o]; [| |reflexivity];
    destruct output as [l | l | o']; try discriminate; simpl;
    destruct (Nat.eqb (List.length v) (List.length l)); reflexivity.
Qed.

(** ** The composite identifier and its members *)

Lemma append_nil_r (s : string) : (s ++ "")%string = s.
Proof. induction s as [|c s IH]; simpl; [reflexivity | rewrite IH; reflexivity]. Qed.

Lemma append_assoc (a b c : string) :
  ((a ++ b) ++ c)%string = (a ++ (b ++ c))%string.
Proof. induction a as [|x a IH]; simpl; [reflexivity | rewrite IH; reflexivity]. Qed.

Lemma length_append (a b : string) :
  String.length (a ++ b) = String.length a + String.length b.
Proof. induction a as [|x a IH]; simpl; [reflexivity | rewrite IH; reflexivity]. Qed.

Lemma substring_append (s t : string) :
  substring 0 (String.length s) (s ++ t) = s.
Proof.
  induction s as [|c s IH]; simpl.
  - destruct t; reflexivity.
  - rewrite IH. reflexivity.
Qed.

Lemma prefix_cons (c1 c2 : ascii) (s1 s2 : string) :
  prefix (String c1 s1) (String c2 s2) =
  if ascii_dec c1 c2 then prefix s1 s2 else false.
Proof. reflexivity. Qed.

Lemma prefix_dot (c : ascii) (s1 s2 : string) :
  prefix (String "." s1) (String c s2) =
  if Ascii.eqb c "." then prefix s1 s2 else false.
Proof.
  rewrite prefix_cons. destruct (ascii_dec "." c) as [<- | N].
  - reflexivity.
  - destruct (Ascii.eqb_spec c "."); [congruence | reflexivity].
Qed.

(** [x[2:-2]] takes the two delimiters off a composite. *)
Lemma slice_2_m2_composite (s : string) :
  slice_2_m2 (".." ++ s ++ "..") = s.
Proof.
  unfold slice_2_m2. simpl String.length. rewrite length_append. simpl.
  replace (String.length s + 2 - 2) with (String.length s) by lia.
  apply substring_append.
Qed.

(** No separator begins inside a piece whose dots are apart, when the piece
    ends the string or is followed by a separator. *)
Lemma split_from_piece (p cur r : string) :
  dots_apart p = true ->
  (r = "" \/ exists r', r = ("..." ++ r')%string) ->
  split_from "..." 0 cur (p ++ r) = split_from "..." 0 (cur ++ p) r.
Proof.
  revert cur. induction p as [|c q IH]; intros cur Hp Hr.
  - simpl. rewrite append_nil_r. reflexivity.
  - simpl in Hp. apply andb_true_iff in Hp. destruct Hp as [Hc Hq].
    assert (N : prefix "..." (String c (q ++ r)) = false).
    { rewrite prefix_dot. destruct (Ascii.eqb c "."); [|reflexivity].
      destruct q as [|c' q']; [discriminate|].
      change ((String c' q' ++ r)%string) with (String c' (q' ++ r)).
      rewrite prefix_dot. destruct (Ascii.eqb c' "."); [discriminate|].
      reflexivity. }
    change ((String c q ++ r)%string) with (String c (q ++ r)).
    cbn [split_from]. rewrite N. rewrite (IH _ Hq Hr).
    rewrite append_assoc. reflexivity.
Qed.

Lemma split_from_separator (cur r : string) :
  split_from "..." 0 cur ("..." ++ r) = cur :: split_from "..." 0 "" r.
Proof. destruct r; reflexivity. Qed.

(** [split] undoes [join] on pieces whose dots are apart. *)
Lemma split_concat (parts : list string) :
  parts <> [] ->
  Forall (fun p => dots_apart p = true) parts ->
  split "..." (String.concat "..." parts) = parts.
Proof.
  unfold split. induction parts as [|p [|p2 ps] IH]; intros Hne F.
  - contradiction.
  - inversion F; subst. simpl String.concat.
    rewrite <- (append_nil_r p) at 1.
    rewrite (split_from_piece p "" "");
      [reflexivity | assumption | left; reflexivity].
  - inversion F; subst.
    change (String.concat "..." (p :: p2 :: ps))
      with (p ++ "..." ++ String.concat "..." (p2 :: ps))%string.
    rewrite (split_from_piece p "" ("..." ++ String.concat "..." (p2 :: ps)));
      [|assumption | right; eexists; reflexivity].
    rewrite split_from_separator. simpl append at 1.
    rewrite IH; [reflexivity | discriminate | assumption].
Qed.

Lemma dots_apart_name (s : string) :
  contains "." s = false -> dots_apart s = true.
Proof.
  induction s as [|c s IH]; [reflexivity|]. intros H.
  apply no_dot_cons in H. destruct H as [Hc Hs]. simpl.
  rewrite (IH Hs), andb_true_r.
  destruct (Ascii.eqb_spec c "."); [contradiction | reflexivity].
Qed.

Lemma dots_apart_str (b : Binding) :
  dot_free b -> plain_property b -> dots_apart (str b) = true.
Proof.
  destruct b as [id prop]. unfold dot_free, plain_property, str. simpl.
  intros Hid [Hne Hprop]. induction id as [|c id IH].
  - simpl. destruct prop as [|c' prop']; [contradiction|].
    pose proof (dots_apart_name _ Hprop) as D.
    apply no_dot_cons in Hprop. destruct Hprop as [Hc' _].
    rewrite D, andb_true_r.
    destruct (Ascii.eqb_spec c' "."); [contradiction | reflexivity].
  - apply no_dot_cons in Hid. destruct Hid as [Hc Hid]. simpl.
    rewrite (IH Hid), andb_true_r.
    destruct (Ascii.eqb_spec c "."); [contradiction | reflexivity].
Qed.

Lemma startswith_composite (s : string) : startswith ".." (".." ++ s) = true.
Proof. destruct s; reflexivity. Qed.

(** The members of the identifier of a multi-output are the string forms of
    its outputs. *)
Lemma members_of_composite (outs : list Binding) (s : string) :
  outs <> [] -> Forall dot_free outs -> Forall plain_property outs ->
  member_binding (create_callback_id true outs) s <-> In s (map str outs).
Proof.
  intros Hne Fd Fp.
  assert (S : split "..." (slice_2_m2 (create_callback_id true outs))
              = map str outs).
  { unfold create_callback_id. rewrite slice_2_m2_composite.
    apply split_concat.
    - destruct outs; [contradiction | discriminate].
    - rewrite Forall_forall in *. intros p Hp.
      apply in_map_iff in Hp. destruct Hp as [b [<- Hb]].
      apply dots_apart_str; auto. }
  pose proof (startswith_composite
                (String.concat "..." (map str outs) ++ "..")) as P.
  split.
  - intros [E _ | _ H]; [|rewrite <- S; exact H].
    unfold create_callback_id in E. congruence.
  - intros H. apply registered_in_composite; [exact P | rewrite S; exact H].
Qed.

(** The identifier of a single output is its only member. *)
Lemma members_of_single (o : Binding) (s : string) :
  dot_free o -> plain_property o ->
  member_binding (create_callback_id false [o]) s <-> s = str o.
Proof.
  intros Hd [Hne Hp]. simpl create_callback_id.
  assert (E : startswith ".." (str o) = false).
  { destruct o as [id prop]. unfold dot_free, str, startswith in *.
    cbn [binding_id binding_property] in *.
    destruct id as [|c id]; cbn [append].
    - destruct prop as [|c' prop]; [contradiction|].
      apply no_dot_cons in Hp. destruct Hp as [Hc' _].
      rewrite !prefix_dot. cbn [Ascii.eqb Bool.eqb].
      destruct (Ascii.eqb_spec c' "."); [contradiction | reflexivity].
    - apply no_dot_cons in Hd. destruct Hd as [Hc _].
      rewrite prefix_dot.
      destruct (Ascii.eqb_spec c "."); [contradiction | reflexivity]. }
  split.
  - intros [_ H | C _]; [exact H | congruence].
  - intros ->. apply registered_alone; [exact E | reflexivity].
Qed.

(** So a key of the callback map that identifies a declaration holds every
    output of that declaration as a registered binding. *)
Lemma registered_declaration_members (app : App) (is_multi : bool)
    (registered : list Binding) (y : Binding) :
  In (create_callback_id is_multi registered) (callback_map app) ->
  (is_multi = false -> exists o, registered = [o]) ->
  Forall dot_free registered -> Forall plain_property registered ->
  In y registered ->
  registered_binding app (str y).
Proof.
  intros Hkey Hsingle Fd Fp Hy.
  exists (create_callback_id is_multi registered). split; [exact Hkey|].
  destruct is_multi.
  - apply members_of_composite; auto.
    + intros ->. contradiction.
    + apply in_map. exact Hy.
  - destruct (Hsingle eq_refl) as [o ->]. destruct Hy as [<- | []].
    inversion Fd; inversion Fp; subst.
    apply members_of_single; auto.
Qed.

(** A declaration that passes the declaration checks and shares an output
    with a declaration of the callback map is refused. *)
Lemma shared_output_is_refused app layout output inputs state outs ins sts
    (is_multi : bool) (registered : list Binding) (y : Binding) :
  passes_declaration_checks app layout output inputs state outs ins sts ->
  In (create_callback_id is_multi registered) (callback_map app) ->
  (is_multi = false -> exists o, registered = [o]) ->
  Forall dot_free registered -> Forall plain_property registered ->
  In y registered -> In y outs ->
  outcome (validate_callback layout output inputs state) app =
  Err (DuplicateCallbackOutput
         (if is_list_or_tuple output
          then MultiOutputAlreadyAssigned else OutputAlreadyAssigned)).
Proof.
  intros P Hkey Hsingle Fd Fp Hy Hout.
  pose proof (registered_declaration_members _ _ _ _ Hkey Hsingle Fd Fp Hy) as R.
  rewrite (validate_callback_registry _ _ _ _ _ _ _ _ P).
  destruct output as [l | l | obj]; simpl is_list_or_tuple; cbv iota.
  - rewrite (proj2 (intersection_nonempty app outs)); [reflexivity|].
    exists y. auto.
  - rewrite (proj2 (intersection_nonempty app outs)); [reflexivity|].
    exists y. auto.
  - destruct (single_output_checked _ _ _ _ _ (outputs_pass _ _ _ _ _ _ _ _ P))
      as [o ->].
    destruct Hout as [<- | []]. simpl create_callback_id.
    rewrite (proj2 (callback_id_registered app (str o)) R). reflexivity.
Qed.

(** The outcome of the last stage, in both modes. *)
Lemma registry_outcome app layout output inputs state outs ins sts :
  passes_declaration_checks app layout output inputs state outs ins sts ->
  let run := outcome (validate_callback layout output inputs state) app in
  (run = Err (already_assigned output) /\
   exists y, In y outs /\ registered_binding app (str y))
  \/
  (run = Ok tt /\
   ~ exists y, In y outs /\ registered_binding app (str y)).
Proof.
  intros P run. subst run.
  rewrite (validate_callback_registry _ _ _ _ _ _ _ _ P).
  unfold already_assigned.
  destruct (is_list_or_tuple output) eqn:Hm.
  - destruct (nonempty (intersection (callbacks (callback_map app)) outs)) eqn:E.
    + left. split; [reflexivity|]. apply intersection_nonempty. exact E.
    + right. split; [reflexivity|]. rewrite <- intersection_nonempty. congruence.
  - destruct output as [l | l | obj]; try discriminate.
    destruct (single_output_checked _ _ _ _ _ (outputs_pass _ _ _ _ _ _ _ _ P))
      as [o ->]. simpl create_callback_id.
    destruct (existsb (String.eqb (str o)) (callbacks (callback_map app))) eqn:E.
    + left. split; [reflexivity|]. exists o. split; [left; reflexivity|].
      apply callback_id_registered. exact E.
    + right. split; [reflexivity|]. intros [y [[<- | []] R]].
      apply callback_id_registered in R. congruence.
Qed.

(** When the keys of the callback map identify well-formed declarations, the
    registered bindings are the outputs of these declarations. *)
Lemma registered_binding_iff (app : App) (regs : list Registered) (y : Binding) :
  callback_map app = map identifier regs ->
  Forall well_formed_outputs regs ->
  dot_free y ->
  registered_binding app (str y) <-> In y (flat_map snd regs).
Proof.
  intros Hmap Hwf Hy. rewrite Forall_forall in Hwf. rewrite in_flat_map. split.
  - intros [x [Hx M]]. rewrite Hmap in Hx. apply in_map_iff in Hx.
    destruct Hx as [[is_multi outs] [<- Hr]]. exists (is_multi, outs).
    split; [exact Hr|].
    destruct (Hwf _ Hr) as [Hne [Hsingle [Fd Fp]]]. simpl in *.
    unfold identifier in M. simpl in M.
    assert (S : In (str y) (map str outs)).
    { destruct is_multi.
      - apply (members_of_composite outs); assumption.
      - destruct (Hsingle eq_refl) as [o ->].
        inversion Fd; inversion Fp; subst.
        apply (members_of_single o) in M; auto. left. auto. }
    apply in_map_iff in S. destruct S as [b [E Hb]].
    rewrite Forall_forall in Fd.
    apply str_inj in E; auto. subst b. exact Hb.
  - intros [[is_multi outs] [Hr Hin]]. simpl in Hin.
    destruct (Hwf _ Hr) as [Hne [Hsingle [Fd Fp]]]. simpl in *.
    apply (registered_declaration_members app is_multi outs); auto.
    rewrite Hmap. apply (in_map identifier _ _ Hr).
Qed.

(** ** Registration *)

(** The declaration checks do not look at the callback map. *)
Lemma passes_declaration_checks_frame app app' layout output inputs state
    outs ins sts :
  suppress_callback_exceptions app' = suppress_callback_exceptions app ->
  passes_declaration_checks app layout output inputs state outs ins sts ->
  passes_declaration_checks app' layout output inputs state outs ins sts.
Proof.
  intros E [Hl Ho Hi Hs Hp Hd Hn]. constructor; try rewrite E; assumption.
Qed.

Lemma validate_callback_run layout output inputs state app :
  validate_callback layout output inputs state app =
  (outcome (validate_callback layout output inputs state) app, app).
Proof.
  pose proof (validate_callback_read_only layout output inputs state app) as F.
  unfold final, outcome in *.
  destruct (validate_callback layout output inputs state app) as [r a].
  simpl in *. subst a. reflexivity.
Qed.

(** A registration whose validation returns adds the identifier of the
    declaration, and nothing else, to the callback map. *)
Lemma register_callback_run app layout output inputs state outs ins sts :
  passes_declaration_checks app layout output inputs state outs ins sts ->
  outcome (validate_callback layout output inputs state) app = Ok tt ->
  register_callback layout output inputs state app =
  (Ok tt,
   add_callback (create_callback_id (is_list_or_tuple output) outs) app).
Proof.
  intros P Hok. unfold register_callback. cbn [bind M_monad].
  rewrite validate_callback_run, Hok. unfold gets, lift.
  rewrite (outputs_pass _ _ _ _ _ _ _ _ P). reflexivity.
Qed.

Lemma add_callback_In callback_id app :
  In callback_id (callback_map (add_callback callback_id app)).
Proof.
  unfold add_callback. simpl.
  destruct (existsb (String.eqb callback_id) (callback_map app)) eqn:E.
  - apply existsb_exists in E. destruct E as [x [Hx E]].
    apply String.eqb_eq in E. subst x. exact Hx.
  - apply in_or_app. right. left. reflexivity.
Qed.

(** Registering the same outputs twice fails the second time: after a
    registration, the declaration no longer validates.  The property names
    are names, so that the identifier can be taken apart again. *)
Lemma second_registration_fails app layout output inputs state outs ins sts :
  passes_declaration_checks app layout output inputs state outs ins sts ->
  outcome (validate_callback layout output inputs state) app = Ok tt ->
  outs <> [] -> Forall plain_property outs ->
  let refused :=
    Err (DuplicateCallbackOutput
           (if is_list_or_tuple output
            then MultiOutputAlreadyAssigned else OutputAlreadyAssigned)) in
  let app' := final (register_callback layout output inputs state) app in
  outcome (validate_callback layout output inputs state) app' = refused /\
  outcome (register_callback layout output inputs state) app' = refused /\
  final (register_callback layout output inputs state) app' = app'.
Proof.
  intros P Hok Hne Fp refused app'.
  assert (E : app' = add_callback
                       (create_callback_id (is_list_or_tuple output) outs) app)
    by (unfold app', final; rewrite (register_callback_run _ _ _ _ _ _ _ _ P Hok);
        reflexivity).
  assert (P' : passes_declaration_checks app' layout output inputs state
                 outs ins sts)
    by (apply (passes_declaration_checks_frame app); [rewrite E|]; auto).
  assert (V : outcome (validate_callback layout output inputs state) app'
              = refused).
  { destruct outs as [|y outs']; [contradiction|].
    apply (shared_output_is_refused _ _ _ _ _ _ _ _
             (is_list_or_tuple output) (y :: outs') y P').
    - rewrite E. apply add_callback_In.
    - intros Hm. destruct output as [l | l | o]; try discriminate.
      exact (single_output_checked _ _ _ _ _ (outputs_pass _ _ _ _ _ _ _ _ P)).
    - exact (validate_callback_args_dot_free _ _ _ _ _
               (outputs_pass _ _ _ _ _ _ _ _ P)).
    - exact Fp.
    - left; reflexivity.
    - left; reflexivity. }
  split; [exact V|].
  unfold outcome, final, register_callback. cbn [bind M_monad].
  rewrite validate_callback_run, V. split; reflexivity.
Qed.

(** Registration, unlike validation, writes the callback map. *)
Lemma register_callback_writes :
  final
    (register_callback None (PyObject (dep Output "a" "value"))
       (PyList [dep Input "b" "value"]) (PyList []))
    (app_of true ["q.r"])
  = app_of true ["q.r"; "a.value"].
Proof. reflexivity. Qed.

(** The members of a key are told apart only when the property names are
    names: with an empty property name in a multi-output, the pieces of
    the identifier are not the string forms of the outputs. *)
Lemma composite_with_empty_property :
  create_callback_id true
    [{| binding_id := "a"; binding_property := "" |};
     {| binding_id := "b"; binding_property := "value" |}]
  = "..a....b.value.." /\
  callbacks ["..a....b.value.."] = ["a"; ".b.value"].
Proof. split; reflexivity. Qed.

(** * The properties of the specification *)

(** ** Outputs that are already registered *)

(** For a declaration that passes the declaration checks, the keys of the
    callback map are taken apart before the comparison, a key that begins
    with ".." into the pieces between its delimiters and any other key into
    itself, and validation fails with [DuplicateCallbackOutput] exactly when
    one of the outputs (the one output, in single-output mode) is among
    these pieces; it returns otherwise.  When the keys identify well-formed
    declarations, the pieces are the outputs of these declarations,
    registered alone or in a multi-output. *)
Theorem registered_output_fails :
  forall (app : App) (layout : option Layout) (output inputs state : value)
         (outs ins sts : list Binding),
    passes_declaration_checks app layout output inputs state outs ins sts ->
    let run := outcome (validate_callback layout output inputs state) app in
    (run = Err (already_assigned output) <->
     exists y, In y outs /\ registered_binding app (str y)) /\
    (run = Ok tt <->
     ~ exists y, In y outs /\ registered_binding app (str y)) /\
    (forall regs : list Registered,
       callback_map app = map identifier regs ->
       Forall well_formed_outputs regs ->
       (run = Err (already_assigned output) <->
        exists y, In y outs /\ In y (flat_map snd regs)) /\
       (run = Ok tt <->
        ~ exists y, In y outs /\ In y (flat_map snd regs))).
Proof.
  intros app layout output inputs state outs ins sts P run.
  pose proof (validate_callback_args_dot_free _ _ _ _ _
                (outputs_pass _ _ _ _ _ _ _ _ P)) as Fo.
  rewrite Forall_forall in Fo.
  assert (A : (run = Err (already_assigned output) <->
               exists y, In y outs /\ registered_binding app (str y)) /\
              (run = Ok tt <->
               ~ exists y, In y outs /\ registered_binding app (str y))).
  { destruct (registry_outcome _ _ _ _ _ _ _ _ P) as [[R C] | [R C]];
      fold run in R; rewrite R; split; split; intros H;
      try reflexivity; try discriminate; try assumption; contradiction. }
  destruct A as [A1 A2]. split; [exact A1|]. split; [exact A2|].
  intros regs Hmap Hwf.
  assert (E : (exists y, In y outs /\ registered_binding app (str y)) <->
              (exists y, In y outs /\ In y (flat_map snd regs))).
  { split; intros [y [Hy R]]; exists y; (split; [exact Hy|]);
      apply (registered_binding_iff app regs y Hmap Hwf (Fo y Hy)); exact R. }
  rewrite <- E. split; assumption.
Qed.

Lemma registered_output_fails_witness :
  outcome
    (validate_callback None
       (PyList [dep Output "a" "children"; dep Output "c" "value"])
       (PyList [dep Input "b" "value"]) (PyList []))
    (app_of true ["q.r"; "..z.p...c.value.."])
  = Err (DuplicateCallbackOutput MultiOutputAlreadyAssigned)
  /\
  outcome
    (validate_callback None (PyObject (dep Output "z" "p"))
       (PyList [dep Input "b" "value"]) (PyList []))
    (app_of true ["q.r"; "..z.p...c.value.."])
  = Err (DuplicateCallbackOutput OutputAlreadyAssigned)
  /\
  outcome
    (validate_callback None (PyObject (dep Output "z" "value"))
       (PyList [dep Input "b" "value"]) (PyList []))
    (app_of true ["q.r"; "..z.p...c.value.."])
  = Ok tt.
Proof.
  pose (app := app_of true ["q.r"; "..z.p...c.value.."]).
  pose (ins := [{| binding_id := "b"; binding_property := "value" |}]).
  pose (regs := [(false, [{| binding_id := "q"; binding_property := "r" |}]);
                 (true, [{| binding_id := "z"; binding_property := "p" |};
                         {| binding_id := "c"; binding_property := "value" |}])]
                : list Registered).
  assert (Hwf : Forall well_formed_outputs regs).
  { repeat constructor; simpl; try discriminate; try reflexivity.
    intros _. eexists; reflexivity. }
  split; [|split].
  - assert (P : passes_declaration_checks app None
                  (PyList [dep Output "a" "children"; dep Output "c" "value"])
                  (PyList [dep Input "b" "value"]) (PyList [])
                  [{| binding_id := "a"; binding_property := "children" |};
                   {| binding_id := "c"; binding_property := "value" |}]
                  ins []).
    { constructor; try reflexivity.
      - left; reflexivity.
      - intros b [<- | []] [E | [E | []]]; discriminate.
      - intros _. repeat constructor; simpl; intuition discriminate. }
    apply (proj1 (proj2 (proj2 (registered_output_fails _ _ _ _ _ _ _ _ P))
                    regs eq_refl Hwf)).
    exists {| binding_id := "c"; binding_property := "value" |}.
    split; simpl; auto.
  - assert (P : passes_declaration_checks app None
                  (PyObject (dep Output "z" "p"))
                  (PyList [dep Input "b" "value"]) (PyList [])
                  [{| binding_id := "z"; binding_property := "p" |}] ins []).
    { constructor; try reflexivity.
      - left; reflexivity.
      - intros b [<- | []] [E | []]; discriminate.
      - discriminate. }
    apply (proj1 (proj2 (proj2 (registered_output_fails _ _ _ _ _ _ _ _ P))
                    regs eq_refl Hwf)).
    exists {| binding_id := "z"; binding_property := "p" |}.
    split; simpl; auto.
  - assert (P : passes_declaration_checks app None
                  (PyObject (dep Output "z" "value"))
                  (PyList [dep Input "b" "value"]) (PyList [])
                  [{| binding_id := "z"; binding_property := "value" |}] ins []).
    { constructor; try reflexivity.
      - left; reflexivity.
      - intros b [<- | []] [E | []]; discriminate.
      - discriminate. }
    apply (proj2 (proj2 (proj2 (registered_output_fails _ _ _ _ _ _ _ _ P))
                    regs eq_refl Hwf)).
    intros [y [[<- | []] [E | [E | [E | []]]]]]; discriminate.
Defined.

(** C1: the keys of the callback map are taken apart, but the pieces are
    not always the bindings that were registered.  With id checks on, the
    multi-output of the outputs (a, "") and (b, value) is accepted, since
    the empty property is not checked against the component, and it is
    registered under the key "..a....b.value..".  This key is taken apart
    into "a" and ".b.value", so a later declaration with the output
    (b, value), single or in a multi-output, is accepted too, although
    (b, value) is a member of a registered multi-output: the code accepts a
    second callback for an output that has one, which its own message of
    lines 100-104 rules out ("An output can only have a single callback
    function"). *)
Theorem registered_member_not_detected :
  let layout := Some two_nodes_layout in
  let registered := PyList [dep Output "a" ""; dep Output "b" "value"] in
  let inputs := PyList [dep Input "a" "children"] in
  let app := app_of false [] in
  let app' := app_of false ["..a....b.value.."] in
  outcome (validate_callback layout registered inputs (PyList [])) app = Ok tt /\
  create_callback_id true
    [{| binding_id := "a"; binding_property := "" |};
     {| binding_id := "b"; binding_property := "value" |}]
    = "..a....b.value.." /\
  final (register_callback layout registered inputs (PyList [])) app = app' /\
  callbacks (callback_map app') = ["a"; ".b.value"] /\
  outcome
    (validate_callback layout (PyObject (dep Output "b" "value")) inputs
       (PyList [])) app'
  = Ok tt /\
  outcome
    (validate_callback layout
       (PyList [dep Output "root" "children"; dep Output "b" "value"]) inputs
       (PyList [])) app'
  = Ok tt.
Proof. repeat split. Qed.

(** ** The type of [component_id] *)

(** C2: the type check of [component_id] accepts strings only: an object
    whose [component_id] is a dict is rejected with the
    [IncorrectTypeException] whose message reads "component_id must be a
    string or dict", whatever its class, property and event attribute and
    whatever the layout and the flag. *)
Theorem dict_component_id_is_rejected :
  forall (cls : DepClass) (items : list (string * string)) (prop : pyval)
         (event : option pyval) (layout : option Layout) (validate_ids : bool),
    validate_callback_args
      (PyList [Dep {| dep_class := cls; component_id := PyDict items;
                      component_property := prop; component_event := event |}])
      cls layout validate_ids
    = Err (IncorrectTypeException ComponentIdStringOrDict).
Proof.
  intros cls items prop event layout validate_ids.
  unfold validate_callback_args. rewrite validate_args_loop_cons.
  unfold validate_arg, isinstance. simpl.
  destruct cls; reflexivity.
Qed.

(** ** Legacy events *)

(** C3, as the code has it: with id checks enabled, an object that carries
    the legacy [component_event] attribute and would pass without it fails
    with [NonExistentEventException] once the arguments before it have
    passed; with id checks disabled the attribute is not looked at, and the
    list is validated as if the object did not carry it. *)
Theorem legacy_event_fails_under_id_checks :
  forall (pre post : list pyobj) (d : Dependency) (cls : DepClass)
         (layout : option Layout) (bs : list Binding) (b : Binding),
    has_component_event d = true ->
    (validate_args_loop pre cls layout true = Ok bs ->
     validate_arg (Dep (without_event d)) cls layout true = Ok b ->
     validate_callback_args (PyList (pre ++ Dep d :: post)) cls layout true
       = Err NonExistentEventException)
    /\
    (validate_arg (Dep (without_event d)) cls layout false = Ok b ->
     validate_callback_args (PyList (pre ++ Dep d :: post)) cls layout false
       = validate_callback_args
           (PyList (pre ++ Dep (without_event d) :: post)) cls layout false).
Proof.
  intros pre post d cls layout bs b Hev. split.
  - intros Hpre Hd. unfold validate_callback_args.
    apply (validate_args_loop_first_error _ _ _ _ _ _ _ _ Hpre).
    rewrite (validate_arg_event _ _ _ _ _ Hev Hd). reflexivity.
  - intros Hd. unfold validate_callback_args.
    destruct (validate_args_loop pre cls layout false) as [bs0|] eqn:Hpre.
    + rewrite !(validate_args_loop_app _ _ _ _ _ _ Hpre).
      rewrite !validate_args_loop_cons.
      rewrite (validate_arg_event _ _ _ _ _ Hev Hd), Hd. reflexivity.
    + rewrite !(validate_args_loop_app_err _ _ _ _ _ _ Hpre). reflexivity.
Qed.

Lemma legacy_event_fails_under_id_checks_witness :
  validate_callback_args
    (PyList [dep Input "a" "value"; Dep (legacy Input "a" "data-x" "click");
             dep Input "nowhere" "value"])
    Input (Some sample_layout) true
  = Err NonExistentEventException.
Proof.
  apply (proj1 (legacy_event_fails_under_id_checks
                  [dep Input "a" "value"] [dep Input "nowhere" "value"]
                  (legacy Input "a" "data-x" "click") Input (Some sample_layout)
                  [{| binding_id := "a"; binding_property := "value" |}]
                  {| binding_id := "a"; binding_property := "data-x" |}
                  eq_refl)).
  - reflexivity.
  - reflexivity.
Defined.

(** C3, as stated, fails: with id checks disabled a well-formed object that
    carries the legacy attribute passes the argument checks, and the
    declaration is accepted. *)
Lemma legacy_event_passes_without_id_checks :
  has_component_event (legacy Output "a" "value" "click") = true /\
  validate_callback_args (PyList [Dep (legacy Output "a" "value" "click")])
    Output (Some sample_layout) false
  = Ok [{| binding_id := "a"; binding_property := "value" |}] /\
  outcome
    (validate_callback (Some sample_layout)
       (PyObject (Dep (legacy Output "a" "value" "click")))
       (PyList [Dep (legacy Input "root" "children" "click")]) (PyList []))
    (app_of true [])
  = Ok tt.
Proof. repeat split. Qed.

(** ** State without inputs *)

(** C4: a declaration whose State list is non-empty and whose Input list
    is empty is never accepted, and when its argument lists pass the
    argument checks it fails with [MissingInputsException]. *)
Theorem state_without_inputs_fails :
  forall (app : App) (layout : option Layout) (output inputs state : value),
    elements state <> [] ->
    elements inputs = [] ->
    let validate_ids := negb (suppress_callback_exceptions app) in
    let run := outcome (validate_callback layout output inputs state) app in
    run <> Ok tt /\
    (forall outs ins sts : list Binding,
       validate_callback_args (as_outputs output) Output layout validate_ids
         = Ok outs ->
       validate_callback_args inputs Input layout validate_ids = Ok ins ->
       validate_callback_args state State layout validate_ids = Ok sts ->
       run = Err MissingInputsException).
Proof.
  intros app layout output inputs state Hstate Hinputs validate_ids run.
  assert (G : forall outs ins sts : list Binding,
             validate_callback_args (as_outputs output) Output layout
               validate_ids = Ok outs ->
             validate_callback_args inputs Input layout validate_ids = Ok ins ->
             validate_callback_args state State layout validate_ids = Ok sts ->
             run = Err MissingInputsException).
  { intros outs ins sts Ho Hi Hs.
    assert (Hne : sts <> []).
    { intros ->. apply validate_callback_args_length in Hs.
      destruct (elements state); [contradiction | discriminate]. }
    assert (Hnil : ins = []).
    { apply validate_callback_args_length in Hi. rewrite Hinputs in Hi.
      destruct ins; [reflexivity | discriminate]. }
    subst ins run.
    rewrite (validate_callback_after_args _ _ _ _ _ _ _ _
               (layout_check_passes _ _ _ _ _ Hs Hne) Ho Hi Hs).
    destruct sts; [contradiction | reflexivity]. }
  split; [|exact G].
  intros Hok. destruct (validate_callback_ok_inv _ _ _ _ _ Hok)
    as [outs [ins [sts [_ Ho Hi Hs _ _ _]]]].
  specialize (G outs ins sts Ho Hi Hs). congruence.
Qed.

Lemma state_without_inputs_fails_witness :
  outcome
    (validate_callback None (PyObject (dep Output "out" "children"))
       (PyList []) (PyTuple [dep State "in" "value"]))
    (app_of true ["other.children"])
  = Err MissingInputsException.
Proof.
  apply (proj2 (state_without_inputs_fails (app_of true ["other.children"])
                  None (PyObject (dep Output "out" "children")) (PyList [])
                  (PyTuple [dep State "in" "value"])
                  ltac:(discriminate) eq_refl)
           [{| binding_id := "out"; binding_property := "children" |}]
           []
           [{| binding_id := "in"; binding_property := "value" |}]);
    reflexivity.
Defined.

(** ** An input that is an output *)

(** C5: a declaration in which some Input binding equals an Output binding
    (same component_id and same component_property) is never accepted, in
    single-output and in multi-output mode, and when its argument lists pass
    the argument checks it fails with [SameInputOutputException]. *)
Theorem input_equal_to_output_fails :
  forall (app : App) (layout : option Layout) (output inputs state : value)
         (i o : Dependency),
    In (Dep i) (elements inputs) ->
    In (Dep o) (elements (as_outputs output)) ->
    component_id i = component_id o ->
    component_property i = component_property o ->
    let validate_ids := negb (suppress_callback_exceptions app) in
    let run := outcome (validate_callback layout output inputs state) app in
    run <> Ok tt /\
    (forall outs ins sts : list Binding,
       validate_callback_args (as_outputs output) Output layout validate_ids
         = Ok outs ->
       validate_callback_args inputs Input layout validate_ids = Ok ins ->
       validate_callback_args state State layout validate_ids = Ok sts ->
       run = Err SameInputOutputException).
Proof.
  intros app layout output inputs state i o Hin Hout Eid Eprop validate_ids run.
  assert (G : forall outs ins sts : list Binding,
             validate_callback_args (as_outputs output) Output layout
               validate_ids = Ok outs ->
             validate_callback_args inputs Input layout validate_ids = Ok ins ->
             validate_callback_args state State layout validate_ids = Ok sts ->
             run = Err SameInputOutputException).
  { intros outs ins sts Ho Hi Hs.
    destruct (validate_callback_args_In _ _ _ _ _ _ Hi Hin) as [bi [Bi [Ii Pi]]].
    destruct (validate_callback_args_In _ _ _ _ _ _ Ho Hout) as [bo [Bo [Io Po]]].
    assert (E : bi = bo) by (apply binding_fields_eq; congruence).
    subst bo.
    assert (Hne : ins <> []) by (intros ->; contradiction).
    subst run.
    rewrite (validate_callback_after_args _ _ _ _ _ _ _ _
               (layout_check_passes _ _ _ _ _ Hi Hne) Ho Hi Hs).
    replace (nonempty ins) with true
      by (destruct ins; [contradiction | reflexivity]).
    rewrite andb_false_r.
    replace (existsb (fun i0 => existsb (fun o0 => binding_eqb o0 i0) outs) ins)
      with true; [reflexivity|].
    symmetry. apply existsb_binding_In.
    - exact (validate_callback_args_dot_free _ _ _ _ _ Ho).
    - exact (validate_callback_args_dot_free _ _ _ _ _ Hi).
    - exists bi. auto. }
  split; [|exact G].
  intros Hok. destruct (validate_callback_ok_inv _ _ _ _ _ Hok)
    as [outs [ins [sts [_ Ho Hi Hs _ _ _]]]].
  specialize (G outs ins sts Ho Hi Hs). congruence.
Qed.

Lemma input_equal_to_output_fails_witness :
  outcome
    (validate_callback None (PyObject (dep Output "a" "value"))
       (PyList [dep Input "b" "value"; dep Input "a" "value"]) (PyList []))
    (app_of true [])
  = Err SameInputOutputException
  /\
  outcome
    (validate_callback None
       (PyList [dep Output "c" "children"; dep Output "a" "value"])
       (PyList [dep Input "a" "value"]) (PyList [dep State "s" "value"]))
    (app_of true [])
  = Err SameInputOutputException.
Proof.
  split.
  - eapply (proj2 (input_equal_to_output_fails (app_of true []) None
                     (PyObject (dep Output "a" "value"))
                     (PyList [dep Input "b" "value"; dep Input "a" "value"])
                     (PyList []) _ _
                     (or_intror (or_introl eq_refl)) (or_introl eq_refl)
                     eq_refl eq_refl));
      reflexivity.
  - eapply (proj2 (input_equal_to_output_fails (app_of true []) None
                     (PyList [dep Output "c" "children"; dep Output "a" "value"])
                     (PyList [dep Input "a" "value"])
                     (PyList [dep State "s" "value"]) _ _
                     (or_introl eq_refl) (or_intror (or_introl eq_refl))
                     eq_refl eq_refl));
      reflexivity.
Defined.

(** ** A repeated output *)

(** C6: a multi-output declaration in which the same Output binding stands
    at two places of the output list is never accepted, and when it reaches
    the check of its outputs (its argument lists pass the argument checks,
    inputs are present when state is, no input equals an output) it fails
    with [DuplicateCallbackOutput], "Same output was used more than
    once". *)
Theorem repeated_output_fails :
  forall (app : App) (layout : option Layout) (output inputs state : value)
         (n m : nat) (d1 d2 : Dependency),
    is_list_or_tuple output = true ->
    n <> m ->
    nth_error (elements output) n = Some (Dep d1) ->
    nth_error (elements output) m = Some (Dep d2) ->
    component_id d1 = component_id d2 ->
    component_property d1 = component_property d2 ->
    let validate_ids := negb (suppress_callback_exceptions app) in
    let run := outcome (validate_callback layout output inputs state) app in
    run <> Ok tt /\
    (forall outs ins sts : list Binding,
       validate_callback_args output Output layout validate_ids = Ok outs ->
       validate_callback_args inputs Input layout validate_ids = Ok ins ->
       validate_callback_args state State layout validate_ids = Ok sts ->
       (elements state = [] \/ elements inputs <> []) ->
       (forall i o,
          In (Dep i) (elements inputs) -> In (Dep o) (elements output) ->
          component_id i = component_id o ->
          component_property i = component_property o -> False) ->
       run = Err (DuplicateCallbackOutput SameOutputMoreThanOnce)).
Proof.
  intros app layout output inputs state n m d1 d2 Hm Hnm Hn1 Hn2 Eid Eprop
         validate_ids run.
  assert (Has : as_outputs output = output)
    by (destruct output; (reflexivity || discriminate)).
  assert (Dup : forall outs,
             validate_callback_args output Output layout validate_ids = Ok outs ->
             outs <> [] /\ ~ NoDup outs).
  { intros outs Ho.
    destruct (validate_callback_args_nth _ _ _ _ _ _ _ Ho Hn1) as [b1 [B1 [I1 P1]]].
    destruct (validate_callback_args_nth _ _ _ _ _ _ _ Ho Hn2) as [b2 [B2 [I2 P2]]].
    assert (E : b1 = b2) by (apply binding_fields_eq; congruence). subst b2.
    split; [intros ->; destruct n; discriminate|].
    intros N. apply Hnm. apply (proj1 (NoDup_nth_error outs) N).
    - apply nth_error_Some. congruence.
    - congruence. }
  split.
  - intros Hok. destruct (validate_callback_ok_inv _ _ _ _ _ Hok)
      as [outs [ins [sts [_ Ho _ _ _ _ Hd]]]].
    rewrite Has in Ho. exact (proj2 (Dup outs Ho) (Hd Hm)).
  - intros outs ins sts Ho Hi Hs Hpresent Hdisj.
    destruct (Dup outs Ho) as [Hne HN].
    assert (Ho' : validate_callback_args (as_outputs output) Output layout
                    validate_ids = Ok outs) by (rewrite Has; exact Ho).
    pose proof (validate_callback_args_dot_free _ _ _ _ _ Ho) as Fo.
    pose proof (validate_callback_args_dot_free _ _ _ _ _ Hi) as Fi.
    subst run.
    rewrite (validate_callback_after_args _ _ _ _ _ _ _ _
               (layout_check_passes _ _ _ _ _ Ho Hne) Ho' Hi Hs).
    replace (nonempty sts && negb (nonempty ins)) with false.
    2:{ symmetry. apply validate_callback_args_length in Hs, Hi.
        destruct Hpresent as [Hst | Hin].
        - rewrite Hst in Hs. destruct sts; [reflexivity | discriminate].
        - destruct ins; [|apply andb_false_r].
          destruct (elements inputs); [contradiction | discriminate]. }
    replace (existsb (fun i => existsb (fun o => binding_eqb o i) outs) ins)
      with false.
    2:{ symmetry. apply not_true_is_false. intros C.
        apply existsb_binding_In in C; auto. destruct C as [b [Bi Bo]].
        destruct (validate_callback_args_In_inv _ _ _ _ _ _ Hi Bi)
          as [i [Hi' [Ii Pi]]].
        destruct (validate_callback_args_In_inv _ _ _ _ _ _ Ho Bo)
          as [o [Ho'' [Io Po]]].
        apply (Hdisj i o Hi' Ho''); congruence. }
    rewrite Hm. simpl andb.
    replace (Nat.eqb (len_set outs) (List.length outs)) with false;
      [reflexivity|].
    symmetry. apply not_true_is_false. intros C.
    apply len_set_spec in C; auto.
Qed.

Lemma repeated_output_fails_witness :
  outcome
    (validate_callback None
       (PyList [dep Output "a" "children"; dep Output "a" "children"])
       (PyList [dep Input "b" "value"]) (PyList []))
    (app_of true [])
  = Err (DuplicateCallbackOutput SameOutputMoreThanOnce).
Proof.
  eapply (proj2 (repeated_output_fails (app_of true []) None
                   (PyList [dep Output "a" "children"; dep Output "a" "children"])
                   (PyList [dep Input "b" "value"]) (PyList [])
                   0 1 _ _ eq_refl ltac:(discriminate) eq_refl eq_refl
                   eq_refl eq_refl)).
  - reflexivity.
  - reflexivity.
  - reflexivity.
  - left. reflexivity.
  - intros i o [Hi | []] [Ho | [Ho | []]];
      inversion Hi; inversion Ho; subst; discriminate.
Defined.

(** ** The value returned for a multi-output *)

(** C7: for a multi-output (a list or tuple of outputs),
    [validate_multi_return] raises [InvalidCallbackReturnValue] exactly when
    the returned value is not a list or tuple or has not as many elements
    as there are outputs, and returns otherwise. *)
Theorem validate_multi_return_spec :
  forall (output output_value : value) (callback_id : string),
    is_list_or_tuple output = true ->
    let wrong :=
      is_list_or_tuple output_value = false \/
      List.length (elements output_value) <> List.length (elements output) in
    ((exists m, validate_multi_return output output_value callback_id
                = Err (InvalidCallbackReturnValue m)) <-> wrong) /\
    (validate_multi_return output output_value callback_id = Ok tt
       <-> ~ wrong).
Proof.
  intros output output_value callback_id Hm wrong. subst wrong.
  rewrite (validate_multi_return_eq _ _ _ Hm).
  destruct (is_list_or_tuple output_value) eqn:L; simpl.
  - destruct (Nat.eqb (List.length (elements output_value))
                      (List.length (elements output))) eqn:E;
      [apply Nat.eqb_eq in E | apply Nat.eqb_neq in E].
    + split; split.
      * intros [m H]; discriminate.
      * intros [H | H]; [discriminate | contradiction].
      * intros _ [H | H]; [discriminate | contradiction].
      * reflexivity.
    + split; split.
      * intros _. right; exact E.
      * intros _. eexists; reflexivity.
      * discriminate.
      * intros H. exfalso. apply H. right; exact E.
  - split; split.
    + intros _. left; reflexivity.
    + intros _. eexists; reflexivity.
    + discriminate.
    + intros H. exfalso. apply H. left; reflexivity.
Qed.

Lemma validate_multi_return_spec_witness :
  validate_multi_return
    (PyList [dep Output "a" "children"; dep Output "b" "children"])
    (PyTuple [Plain (PyStr "one"); Plain (PyInt 2)]) "..a.children...b.children.."
  = Ok tt
  /\
  exists m,
    validate_multi_return
      (PyList [dep Output "a" "children"; dep Output "b" "children"])
      (PyObject (Plain (PyStr "ab"))) "..a.children...b.children.."
    = Err (InvalidCallbackReturnValue m).
Proof.
  split.
  - apply (proj2 (validate_multi_return_spec
                    (PyList [dep Output "a" "children"; dep Output "b" "children"])
                    (PyTuple [Plain (PyStr "one"); Plain (PyInt 2)])
                    "..a.children...b.children.." eq_refl)).
    intros [H | H]; [discriminate | apply H; reflexivity].
  - apply (proj1 (validate_multi_return_spec
                    (PyList [dep Output "a" "children"; dep Output "b" "children"])
                    (PyObject (Plain (PyStr "ab")))
                    "..a.children...b.children.." eq_refl)).
    left. reflexivity.
Defined.

(** ** A period in [component_id] *)

(** C8, as the code has it: once the arguments before it have passed, an
    object of the expected class whose [component_id] is a string that
    contains "." and whose [component_property] is a string fails with
    [InvalidComponentIdError], whether identifiers are checked against the
    layout or not, whatever the layout holds and whether the object carries
    an event attribute or not; an object of another class, and an object of
    the expected class with a string id and a property that is not a string,
    fail with [IncorrectTypeException] instead, with or without a "." in the
    id. *)
Theorem period_in_component_id_fails :
  forall (pre post : list pyobj) (d : Dependency) (cls : DepClass)
         (layout : option Layout) (validate_ids : bool) (bs : list Binding),
    validate_args_loop pre cls layout validate_ids = Ok bs ->
    let run :=
      validate_callback_args (PyList (pre ++ Dep d :: post)) cls layout
        validate_ids in
    (forall arg_id arg_prop : string,
       dep_class d = cls ->
       component_id d = PyStr arg_id ->
       component_property d = PyStr arg_prop ->
       contains "." arg_id = true ->
       run = Err InvalidComponentIdError) /\
    (dep_class d <> cls ->
     run = Err (IncorrectTypeException MustBeOfType)) /\
    (forall arg_id : string,
       dep_class d = cls ->
       component_id d = PyStr arg_id ->
       (forall arg_prop, component_property d <> PyStr arg_prop) ->
       run = Err (IncorrectTypeException ComponentPropertyString)).
Proof.
  intros pre post d cls layout validate_ids bs Hpre run. subst run.
  unfold validate_callback_args.
  split; [|split].
  - intros arg_id arg_prop Hc Hi Hp Hdot.
    apply (validate_args_loop_first_error _ _ _ _ _ _ _ _ Hpre).
    unfold validate_arg, isinstance. rewrite Hc, Hi, Hp.
    replace (DepClass_eqb cls cls) with true by (destruct cls; reflexivity).
    simpl. rewrite Hdot. reflexivity.
  - intros Hc.
    apply (validate_args_loop_first_error _ _ _ _ _ _ _ _ Hpre).
    unfold validate_arg, isinstance.
    replace (DepClass_eqb (dep_class d) cls) with false; [reflexivity|].
    destruct (dep_class d), cls; try reflexivity; contradiction.
  - intros arg_id Hc Hi Hp.
    apply (validate_args_loop_first_error _ _ _ _ _ _ _ _ Hpre).
    unfold validate_arg, isinstance. rewrite Hc, Hi.
    replace (DepClass_eqb cls cls) with true by (destruct cls; reflexivity).
    simpl negb. cbv iota.
    destruct (component_property d) as [|n|arg_prop|items] eqn:E;
      try reflexivity.
    exfalso. exact (Hp arg_prop eq_refl).
Qed.

Lemma period_in_component_id_fails_witness :
  validate_callback_args
    (PyList [dep State "a" "value"; dep State "not.there" "missing"])
    State (Some sample_layout) true
  = Err InvalidComponentIdError
  /\
  validate_callback_args
    (PyList [Dep (legacy State "a.b" "" "click")]) State None false
  = Err InvalidComponentIdError
  /\
  validate_callback_args
    (PyList [dep State "a" "value"; dep Input "a.b" "value"])
    State (Some sample_layout) true
  = Err (IncorrectTypeException MustBeOfType)
  /\
  validate_callback_args
    (PyList [Dep {| dep_class := State; component_id := PyStr "a.b";
                    component_property := PyInt 1; component_event := None |}])
    State None false
  = Err (IncorrectTypeException ComponentPropertyString).
Proof.
  split; [|split; [|split]].
  - apply (proj1 (period_in_component_id_fails
                    [dep State "a" "value"] []
                    {| dep_class := State; component_id := PyStr "not.there";
                       component_property := PyStr "missing";
                       component_event := None |}
                    State (Some sample_layout) true
                    [{| binding_id := "a"; binding_property := "value" |}]
                    eq_refl) "not.there" "missing"); reflexivity.
  - apply (proj1 (period_in_component_id_fails
                    [] [] (legacy State "a.b" "" "click") State None false
                    [] eq_refl) "a.b" ""); reflexivity.
  - apply (proj1 (proj2 (period_in_component_id_fails
                    [dep State "a" "value"] []
                    {| dep_class := Input; component_id := PyStr "a.b";
                       component_property := PyStr "value";
                       component_event := None |}
                    State (Some sample_layout) true
                    [{| binding_id := "a"; binding_property := "value" |}]
                    eq_refl))).
    discriminate.
  - apply (proj2 (proj2 (period_in_component_id_fails
                    [] []
                    {| dep_class := State; component_id := PyStr "a.b";
                       component_property := PyInt 1;
                       component_event := None |}
                    State None false [] eq_refl)) "a.b");
      [reflexivity | reflexivity | discriminate].
Defined.

(** C8, as stated, fails: an identifier with "." in an object of another
    class, or next to a property that is not a string, is reported as an
    [IncorrectTypeException], because the class and type checks come
    first. *)
Lemma period_in_component_id_after_type_checks :
  contains "." "a.b" = true /\
  validate_callback_args
    (PyList [Dep {| dep_class := Output; component_id := PyStr "a.b";
                    component_property := PyNone; component_event := None |}])
    Output None false
  = Err (IncorrectTypeException ComponentPropertyString) /\
  validate_callback_args (PyList [dep Input "a.b" "value"]) Output None false
  = Err (IncorrectTypeException MustBeOfType).
Proof. repeat split. Qed.

(** ** No side effect *)

(** C9: [validate_callback] leaves the application (its configuration and
    its callback map) as it found it, so validating the same declaration
    again, against the application the first validation left, has the same
    outcome: a declaration that passes once passes twice. *)
Theorem validate_callback_no_side_effect :
  forall (app : App) (layout : option Layout) (output inputs state : value),
    let first := validate_callback layout output inputs state app in
    let second := validate_callback layout output inputs state (snd first) in
    snd first = app /\
    callback_map (snd first) = callback_map app /\
    snd second = app /\
    fst second = fst first /\
    (fst first = Ok tt -> fst second = Ok tt).
Proof.
  intros app layout output inputs state first second.
  assert (H1 : snd first = app)
    by apply (validate_callback_read_only layout output inputs state app).
  subst second. rewrite H1. fold first.
  repeat split; try assumption; congruence.
Qed.

(** ** The empty property name *)

(** C10: with id checks enabled, an object whose [component_property] is
    the empty string never makes its check raise [NonExistentPropException],
    whatever the properties and wildcards of the target component, and a
    list of such objects fails, if it fails, with another exception. *)
Theorem empty_property_is_never_unknown :
  forall (cls : DepClass) (layout : option Layout),
    (forall d : Dependency,
       component_property d = PyStr "" ->
       validate_arg (Dep d) cls layout true <> Err NonExistentPropException)
    /\
    (forall args : value,
       (forall d, In (Dep d) (elements args) ->
                  component_property d = PyStr "") ->
       validate_callback_args args cls layout true
         <> Err NonExistentPropException).
Proof.
  intros cls layout. split.
  - intros d Hd. apply validate_arg_empty_property.
    intros d' E. inversion E; subst d'. exact Hd.
  - intros args Hprop.
    assert (G : forall l,
               (forall d, In (Dep d) l -> component_property d = PyStr "") ->
               validate_args_loop l cls layout true
                 <> Err NonExistentPropException).
    { induction l as [|arg rest IH]; intros H; [discriminate|].
      rewrite validate_args_loop_cons.
      destruct (validate_arg arg cls layout true) as [b|e] eqn:E.
      - assert (R : validate_args_loop rest cls layout true
                      <> Err NonExistentPropException)
          by (apply IH; intros d Hd; apply H; right; exact Hd).
        destruct (validate_args_loop rest cls layout true);
          [discriminate | exact R].
      - intros C. inversion C; subst e. revert E.
        apply validate_arg_empty_property.
        intros d ->. apply H. left; reflexivity. }
    destruct args as [l | l | o]; simpl in *; try discriminate;
      apply G; exact Hprop.
Qed.

Lemma empty_property_is_never_unknown_witness :
  validate_arg (dep Input "a" "") Input (Some sample_layout) true
    <> Err NonExistentPropException
  /\
  validate_callback_args (PyList [dep Input "a" ""; dep Input "root" ""])
    Input (Some sample_layout) true
  <> Err NonExistentPropException.
Proof.
  split.
  - apply (proj1 (empty_property_is_never_unknown Input (Some sample_layout))).
    reflexivity.
  - apply (proj2 (empty_property_is_never_unknown Input (Some sample_layout))
             (PyList [dep Input "a" ""; dep Input "root" ""])).
    intros d [E | [E | []]]; inversion E; reflexivity.
Defined.

(** * Further properties of the validators *)

(** ** The argument checks, element by element *)

Lemma DepClass_eqb_eq (a b : DepClass) : DepClass_eqb a b = true <-> a = b.
Proof. destruct a, b; simpl; split; (reflexivity || discriminate). Qed.

Lemma layout_contains_getitem arg_id layout :
  layout_contains arg_id layout = true ->
  exists component, layout_getitem arg_id layout = Ok component.
Proof.
  unfold layout_contains, layout_getitem. intros H.
  destruct (find (fun kv => String.eqb (fst kv) arg_id) (layout_nodes layout))
    as [kv|] eqn:E; [eexists; reflexivity|].
  apply existsb_exists in H. destruct H as [kv [Hin Hkv]].
  rewrite (find_none _ _ E kv Hin) in Hkv. discriminate.
Qed.

Lemma layout_getitem_contains arg_id layout component :
  layout_getitem arg_id layout = Ok component ->
  layout_contains arg_id layout = true.
Proof.
  unfold layout_contains, layout_getitem.
  destruct (find (fun kv => String.eqb (fst kv) arg_id) (layout_nodes layout))
    as [kv|] eqn:E; [|discriminate]. intros _.
  apply find_some in E. apply existsb_exists. exists kv. exact E.
Qed.

(** The lookup of lines 166-184 in terms of the targeted component. *)
Lemma component_of_spec layout arg_id :
  match component_of layout arg_id with
  | Some component =>
      (negb (layout_contains arg_id layout)
       && negb (id_eqb (layout_id layout) arg_id) = false) /\
      (if id_eqb (layout_id layout) arg_id
       then Ok (layout_root layout)
       else layout_getitem arg_id layout) = Ok component
  | None =>
      negb (layout_contains arg_id layout)
      && negb (id_eqb (layout_id layout) arg_id) = true
  end.
Proof.
  unfold component_of.
  destruct (id_eqb (layout_id layout) arg_id) eqn:T.
  - split; [apply andb_false_r | reflexivity].
  - destruct (find (fun kv => String.eqb (fst kv) arg_id) (layout_nodes layout))
      as [kv|] eqn:E.
    + assert (G : layout_getitem arg_id layout = Ok (snd kv))
        by (unfold layout_getitem; rewrite E; reflexivity).
      rewrite (layout_getitem_contains _ _ _ G). split; [reflexivity | exact G].
    + destruct (layout_contains arg_id layout) eqn:C; [|reflexivity].
      destruct (layout_contains_getitem _ _ C) as [c G].
      unfold layout_getitem in G. rewrite E in G. discriminate.
Qed.

Lemma property_check_spec component arg_prop :
  truthy_str arg_prop
  && negb (existsb (String.eqb arg_prop) (available_properties component))
  && negb (existsb (fun w => startswith w arg_prop)
             (available_wildcard_properties component)) = false
  <-> property_known component arg_prop.
Proof.
  unfold property_known. split.
  - intros H. destruct arg_prop as [|c p]; [left; reflexivity|]. right.
    simpl truthy_str in H. rewrite andb_true_l in H.
    apply andb_false_iff in H. destruct H as [H | H];
      apply negb_false_iff, existsb_exists in H; destruct H as [x [Hx E]].
    + left. apply String.eqb_eq in E. subst x. exact Hx.
    + right. exists x. auto.
  - intros [-> | [H | [w [Hw E]]]].
    + reflexivity.
    + replace (existsb (String.eqb arg_prop) (available_properties component))
        with true; [simpl; rewrite andb_false_r; reflexivity|].
      symmetry. apply existsb_exists. exists arg_prop.
      split; [exact H | apply String.eqb_refl].
    + replace (existsb (fun w => startswith w arg_prop)
                 (available_wildcard_properties component)) with true;
        [simpl; apply andb_false_r|].
      symmetry. apply existsb_exists. exists w. auto.
Qed.

(** The outcome of the id checks for one argument, by cases. *)
Lemma validate_arg_ids_cases d arg_id arg_prop layout :
  validate_arg_ids d arg_id arg_prop (Some layout) =
  match component_of layout arg_id with
  | None => Err NonExistentIdException
  | Some component =>
      if truthy_str arg_prop
         && negb (existsb (String.eqb arg_prop) (available_properties component))
         && negb (existsb (fun w => startswith w arg_prop)
                    (available_wildcard_properties component))
      then Err NonExistentPropException
      else if has_component_event d
      then Err NonExistentEventException
      else Ok tt
  end.
Proof.
  unfold validate_arg_ids. pose proof (component_of_spec layout arg_id) as S.
  destruct (component_of layout arg_id) as [component|].
  - destruct S as [S1 S2]. rewrite S1, S2. reflexivity.
  - rewrite S. reflexivity.
Qed.

Lemma validate_args_loop_ok_iff args cls layout validate_ids :
  (exists bs, validate_args_loop args cls layout validate_ids = Ok bs) <->
  Forall (fun arg => exists b, validate_arg arg cls layout validate_ids = Ok b)
    args.
Proof.
  induction args as [|arg rest IH].
  - split; [constructor | intros _; eexists; reflexivity].
  - rewrite validate_args_loop_cons. split.
    + intros [bs H].
      destruct (validate_arg arg cls layout validate_ids) as [b|] eqn:E;
        [|discriminate].
      destruct (validate_args_loop rest cls layout validate_ids) as [bs'|] eqn:R;
        [|discriminate].
      constructor; [exists b; exact E | apply IH; exists bs'; reflexivity].
    + intros F. inversion F as [|? ? [b Hb] Frest]; subst.
      apply IH in Frest. destruct Frest as [bs' R].
      rewrite Hb, R. eexists; reflexivity.
Qed.

Lemma well_typed_fields cls d arg_id arg_prop :
  well_typed cls (Dep d) arg_id arg_prop ->
  dep_class d = cls /\ component_id d = PyStr arg_id /\
  component_property d = PyStr arg_prop /\ contains "." arg_id = false.
Proof. intros [d' [E H]]. inversion E; subst d'. exact H. Qed.

Lemma validate_arg_accepts_with_ids arg cls layout :
  (exists b, validate_arg arg cls (Some layout) true = Ok b) <->
  accepted_with_ids cls layout arg.
Proof.
  split.
  - intros [b H].
    destruct (validate_arg_fields _ _ _ _ _ H) as [d [-> _]].
    destruct (validate_arg_inv _ _ _ _ _ H) as [Hc [Hi [Hp Hdot]]].
    rewrite (validate_arg_wellformed _ _ _ _ _ _ Hc Hi Hp Hdot) in H.
    rewrite validate_arg_ids_cases in H.
    destruct (component_of layout (binding_id b)) as [component|] eqn:C;
      [|discriminate].
    destruct (truthy_str (binding_property b) && _ && _) eqn:K; [discriminate|].
    unfold has_component_event in H.
    destruct (component_event d) eqn:V; [discriminate|].
    exists d, (binding_id b), (binding_property b), component.
    repeat split; try assumption.
    + exists d. auto.
    + apply property_check_spec. exact K.
  - intros [d [arg_id [arg_prop [component [-> [W [C [K V]]]]]]]].
    destruct (well_typed_fields _ _ _ _ W) as [Hc [Hi [Hp Hdot]]].
    rewrite (validate_arg_wellformed _ _ _ _ _ _ Hc Hi Hp Hdot).
    rewrite validate_arg_ids_cases, C.
    rewrite (proj2 (property_check_spec component arg_prop) K).
    unfold has_component_event. rewrite V. eexists; reflexivity.
Qed.

Lemma validate_arg_accepts_without_ids arg cls layout :
  (exists b, validate_arg arg cls layout false = Ok b) <->
  accepted_without_ids cls arg.
Proof.
  split.
  - intros [b H].
    destruct (validate_arg_fields _ _ _ _ _ H) as [d [-> _]].
    destruct (validate_arg_inv _ _ _ _ _ H) as [Hc [Hi [Hp Hdot]]].
    exists (binding_id b), (binding_property b), d. auto.
  - intros [arg_id [arg_prop [d [-> [Hc [Hi [Hp Hdot]]]]]]].
    rewrite (validate_arg_wellformed _ _ _ _ _ _ Hc Hi Hp Hdot).
    eexists; reflexivity.
Qed.

(** With id checks on, an argument list passes exactly when it is a list or
    a tuple of which every element is an object of the expected class, with
    a string id without ".", found in the layout (as the root or as a
    descendant), with a string property that is empty, declared by the
    targeted component or covered by one of its wildcards, and without the
    legacy event attribute. *)
Theorem argument_list_accepted_with_id_checks :
  forall (args : value) (cls : DepClass) (layout : Layout),
    (exists bs, validate_callback_args args cls (Some layout) true = Ok bs) <->
    is_list_or_tuple args = true /\
    Forall (accepted_with_ids cls layout) (elements args).
Proof.
  intros args cls layout.
  assert (G : forall l,
             (exists bs, validate_args_loop l cls (Some layout) true = Ok bs) <->
             Forall (accepted_with_ids cls layout) l).
  { intros l. rewrite validate_args_loop_ok_iff. split; intros F;
      (eapply Forall_impl; [|exact F]); intros a Ha;
      apply validate_arg_accepts_with_ids; exact Ha. }
  destruct args as [l | l | o]; simpl.
  - rewrite G. tauto.
  - rewrite G. tauto.
  - split; [intros [bs H]; discriminate | intros [H _]; discriminate].
Qed.

(** With id checks off, an argument list passes exactly when it is a list
    or a tuple of objects of the expected class with a string id without "."
    and a string property: the layout, the properties of the components and
    the legacy event attribute play no part. *)
Theorem argument_list_accepted_without_id_checks :
  forall (args : value) (cls : DepClass) (layout : option Layout),
    (exists bs, validate_callback_args args cls layout false = Ok bs) <->
    is_list_or_tuple args = true /\
    Forall (accepted_without_ids cls) (elements args).
Proof.
  intros args cls layout.
  assert (G : forall l,
             (exists bs, validate_args_loop l cls layout false = Ok bs) <->
             Forall (accepted_without_ids cls) l).
  { intros l. rewrite validate_args_loop_ok_iff. split; intros F;
      (eapply Forall_impl; [|exact F]); intros a Ha;
      apply (validate_arg_accepts_without_ids a cls layout); exact Ha. }
  destruct args as [l | l | o]; simpl.
  - rewrite G. tauto.
  - rewrite G. tauto.
  - split; [intros [bs H]; discriminate | intros [H _]; discriminate].
Qed.

Lemma id_eqb_true_iff top_id arg_id :
  id_eqb top_id arg_id = true <-> top_id = Some arg_id.
Proof.
  destruct top_id as [t|]; simpl.
  - rewrite String.eqb_eq. split; [intros ->; reflexivity | intros H; inversion H; reflexivity].
  - split; discriminate.
Qed.

(** No component is targeted exactly when the id is neither the root's nor
    a descendant's. *)
Lemma component_of_None_iff layout arg_id :
  component_of layout arg_id = None <->
  layout_id layout <> Some arg_id /\ ~ In arg_id (traversed_ids layout).
Proof.
  unfold component_of, traversed_ids.
  destruct (id_eqb (layout_id layout) arg_id) eqn:T.
  - apply id_eqb_true_iff in T. split; [discriminate | intros [H _]; contradiction].
  - assert (N : layout_id layout <> Some arg_id)
      by (intros H; apply id_eqb_true_iff in H; congruence).
    destruct (find (fun kv => String.eqb (fst kv) arg_id) (layout_nodes layout))
      as [kv|] eqn:E.
    + apply find_some in E. destruct E as [Hin E]. apply String.eqb_eq in E.
      split; [discriminate|]. intros [_ H]. exfalso. apply H.
      rewrite <- E. apply in_map. exact Hin.
    + split; [|reflexivity]. intros _. split; [exact N|].
      intros Hin. apply in_map_iff in Hin. destruct Hin as [kv [Ek Hin]].
      pose proof (find_none _ _ E kv Hin) as F. simpl in F.
      rewrite Ek, String.eqb_refl in F. discriminate.
Qed.

(** For an object that passes the class, type and character checks, id
    checks on: [NonExistentIdException] is raised exactly when its id is
    neither the id of the root of the layout nor the id of a descendant, and
    [NonExistentPropException] exactly when the id is found and the property
    is non-empty, not declared by the targeted component and not covered by
    any of its wildcards. *)
Theorem unknown_id_and_unknown_property :
  forall (d : Dependency) (cls : DepClass) (layout : Layout)
         (arg_id arg_prop : string),
    well_typed cls (Dep d) arg_id arg_prop ->
    (validate_arg (Dep d) cls (Some layout) true = Err NonExistentIdException
     <-> layout_id layout <> Some arg_id /\
         ~ In arg_id (traversed_ids layout)) /\
    (validate_arg (Dep d) cls (Some layout) true = Err NonExistentPropException
     <-> exists component,
           component_of layout arg_id = Some component /\
           ~ property_known component arg_prop).
Proof.
  intros d cls layout arg_id arg_prop W.
  destruct (well_typed_fields _ _ _ _ W) as [Hc [Hi [Hp Hdot]]].
  rewrite (validate_arg_wellformed _ _ _ _ _ _ Hc Hi Hp Hdot).
  rewrite validate_arg_ids_cases, <- component_of_None_iff.
  destruct (component_of layout arg_id) as [component|].
  - pose proof (property_check_spec component arg_prop) as K.
    destruct (truthy_str arg_prop && _ && _).
    + split; split; try discriminate; try reflexivity.
      intros _. exists component. split; [reflexivity|].
      intros H. apply K in H. discriminate.
    + assert (Known : property_known component arg_prop)
        by (apply K; reflexivity).
      split; split.
      * destruct (has_component_event d); discriminate.
      * discriminate.
      * destruct (has_component_event d); discriminate.
      * intros [c [E N]]. inversion E; subst c. contradiction.
  - split; split.
    + reflexivity.
    + reflexivity.
    + discriminate.
    + intros [c [E _]]. discriminate.
Qed.

Lemma unknown_id_and_unknown_property_witness :
  validate_arg (dep Input "b" "value") Input (Some sample_layout) true
    = Err NonExistentIdException
  /\
  validate_arg (dep Input "a" "values") Input (Some sample_layout) true
    = Err NonExistentPropException.
Proof.
  assert (W : forall id prop, contains "." id = false ->
                              well_typed Input (dep Input id prop) id prop).
  { intros id prop H. eexists. repeat split. exact H. }
  split.
  - apply (proj1 (unknown_id_and_unknown_property _ Input sample_layout
                    "b" "value" (W "b" "value" eq_refl))).
    split; [discriminate|]. simpl. intros [H | []]. discriminate.
  - apply (proj2 (unknown_id_and_unknown_property _ Input sample_layout
                    "a" "values" (W "a" "values" eq_refl))).
    eexists. split; [reflexivity|].
    intros [H | [[H | []] | [w [[<- | []] H]]]]; discriminate.
Defined.

(** The exceptions of one argument. *)
Lemma validate_arg_exceptions arg cls layout validate_ids e :
  validate_arg arg cls layout validate_ids = Err e ->
  match e with
  | IncorrectTypeException _ | InvalidComponentIdError => True
  | NonExistentIdException | NonExistentPropException
  | NonExistentEventException => validate_ids = true /\ layout <> None
  | TypeError => validate_ids = true /\ layout = None
  | _ => False
  end.
Proof.
  unfold validate_arg. destruct arg as [d | v]; [|intros H; inversion H; exact I].
  destruct (negb (isinstance (Dep d) cls)); [intros H; inversion H; exact I|].
  destruct (component_id d) as [| |arg_id|];
    try (intros H; inversion H; exact I).
  destruct (component_property d) as [| |arg_prop|];
    try (intros H; inversion H; exact I).
  destruct (existsb _ _); [intros H; inversion H; exact I|].
  destruct validate_ids; [|discriminate].
  destruct layout as [l|].
  - rewrite validate_arg_ids_cases.
    destruct (component_of l arg_id) as [component|].
    + destruct (truthy_str arg_prop && _ && _).
      * intros H; inversion H. split; [reflexivity | discriminate].
      * destruct (has_component_event d); [|discriminate].
        intros H; inversion H. split; [reflexivity | discriminate].
    + intros H; inversion H. split; [reflexivity | discriminate].
  - simpl. intros H; inversion H. split; reflexivity.
Qed.

Lemma validate_callback_args_raises args cls layout validate_ids e :
  validate_callback_args args cls layout validate_ids = Err e ->
  match e with
  | IncorrectTypeException _ | InvalidComponentIdError => True
  | NonExistentIdException | NonExistentPropException
  | NonExistentEventException => validate_ids = true /\ layout <> None
  | TypeError => validate_ids = true /\ layout = None
  | _ => False
  end.
Proof.
  assert (G : forall l,
             validate_args_loop l cls layout validate_ids = Err e ->
             match e with
             | IncorrectTypeException _ | InvalidComponentIdError => True
             | NonExistentIdException | NonExistentPropException
             | NonExistentEventException =>
                 validate_ids = true /\ layout <> None
             | TypeError => validate_ids = true /\ layout = None
             | _ => False
             end).
  { induction l as [|arg rest IH]; [discriminate|].
    rewrite validate_args_loop_cons.
    destruct (validate_arg arg cls layout validate_ids) as [b|e'] eqn:E.
    - destruct (validate_args_loop rest cls layout validate_ids);
        [discriminate|].
      intros H. inversion H; subst. apply IH. reflexivity.
    - intros H. inversion H; subst.
      exact (validate_arg_exceptions _ _ _ _ _ E). }
  destruct args as [l | l | o]; simpl; try apply G.
  intros H. inversion H. exact I.
Qed.

(** The argument checks raise [IncorrectTypeException] or
    [InvalidComponentIdError], and with id checks on also
    [NonExistentIdException], [NonExistentPropException] or
    [NonExistentEventException] when there is a layout, and [TypeError] when
    there is none; they raise nothing else: [layout[arg_id]] never fails
    with [KeyError], the test before it has found the id. *)
Theorem argument_checks_exceptions :
  forall (args : value) (cls : DepClass) (layout : option Layout)
         (validate_ids : bool) (e : exn),
    validate_callback_args args cls layout validate_ids = Err e ->
    match e with
    | IncorrectTypeException _ | InvalidComponentIdError => True
    | NonExistentIdException | NonExistentPropException
    | NonExistentEventException => validate_ids = true /\ layout <> None
    | TypeError => validate_ids = true /\ layout = None
    | _ => False
    end.
Proof.
  intros args cls layout validate_ids e.
  apply validate_callback_args_raises.
Qed.

Lemma argument_checks_exceptions_witness :
  validate_callback_args (PyList [dep Input "b" "value"]) Input
    (Some sample_layout) true = Err NonExistentIdException /\
  true = true /\ Some sample_layout <> None.
Proof.
  split; [reflexivity|].
  exact (argument_checks_exceptions (PyList [dep Input "b" "value"]) Input
           (Some sample_layout) true NonExistentIdException eq_refl).
Defined.

(** ** The stages of the declaration check *)

(** [LayoutIsNotDefined] is raised exactly when there is no layout and the
    exceptions are not suppressed, whatever the declaration is; no later
    stage raises it. *)
Theorem layout_is_not_defined_iff :
  forall (app : App) (layout : option Layout) (output inputs state : value),
    outcome (validate_callback layout output inputs state) app
      = Err LayoutIsNotDefined
    <-> layout = None /\ suppress_callback_exceptions app = false.
Proof.
  intros app layout output inputs state.
  rewrite validate_callback_outcome.
  destruct layout as [l|]; destruct (suppress_callback_exceptions app);
    simpl is_none; simpl negb; cbv beta iota delta [andb].
  4:{ split; [intros _; split; reflexivity | reflexivity]. }
  all: split; [|intros [H1 H2]; discriminate]; intros H; exfalso; revert H.
  all: repeat match goal with
       | |- context [validate_callback_args ?a ?c ?l ?v] =>
           let E := fresh "E" in
           destruct (validate_callback_args a c l v) eqn:E;
           [|intros H; inversion H; subst;
             apply validate_callback_args_raises in E; exact E]
       end.
  all: repeat match goal with
       | |- context [if ?c then _ else _] => destruct c
       end; discriminate.
Qed.

(** The argument lists are checked in the order Output, Input, State, and
    the first list that fails decides the exception: later lists and later
    stages are not looked at. *)
Theorem first_failing_list_decides :
  forall (app : App) (layout : option Layout) (output inputs state : value)
         (e : exn),
    let validate_ids := negb (suppress_callback_exceptions app) in
    let check args cls := validate_callback_args args cls layout validate_ids in
    is_none layout && validate_ids = false ->
    (check (as_outputs output) Output = Err e \/
     (exists outs, check (as_outputs output) Output = Ok outs) /\
     (check inputs Input = Err e \/
      (exists ins, check inputs Input = Ok ins) /\
      check state State = Err e)) ->
    outcome (validate_callback layout output inputs state) app = Err e.
Proof.
  intros app layout output inputs state e validate_ids check Hl H.
  rewrite validate_callback_outcome. fold validate_ids. rewrite Hl.
  subst check. cbv beta in H.
  destruct H as [-> | [[outs ->] [-> | [[ins ->] ->]]]]; reflexivity.
Qed.

Lemma first_failing_list_decides_witness :
  outcome
    (validate_callback None (PyObject (dep Output "a" "value"))
       (PyObject (dep Input "b" "value")) (PyList [dep Input "c" "value"]))
    (app_of true [])
  = Err (IncorrectTypeException MustBeListOrTuple).
Proof.
  apply (first_failing_list_decides (app_of true []) None
           (PyObject (dep Output "a" "value"))
           (PyObject (dep Input "b" "value")) (PyList [dep Input "c" "value"])
           (IncorrectTypeException MustBeListOrTuple) eq_refl).
  right. split; [eexists; reflexivity|]. left. reflexivity.
Defined.

(** A declaration is accepted exactly when it passes the declaration checks
    and none of its outputs is a registered binding. *)
Theorem validate_callback_accepts_iff :
  forall (app : App) (layout : option Layout) (output inputs state : value),
    outcome (validate_callback layout output inputs state) app = Ok tt <->
    exists outs ins sts,
      passes_declaration_checks app layout output inputs state outs ins sts /\
      ~ exists y, In y outs /\ registered_binding app (str y).
Proof.
  intros app layout output inputs state. split.
  - intros Hok. destruct (validate_callback_ok_inv _ _ _ _ _ Hok)
      as [outs [ins [sts P]]].
    exists outs, ins, sts. split; [exact P|].
    destruct (registry_outcome _ _ _ _ _ _ _ _ P) as [[R _] | [_ N]];
      [congruence | exact N].
  - intros [outs [ins [sts [P N]]]].
    destruct (registry_outcome _ _ _ _ _ _ _ _ P) as [[_ C] | [R _]];
      [contradiction | exact R].
Qed.

Lemma validate_arg_ignores_layout arg cls layout layout' :
  validate_arg arg cls layout false = validate_arg arg cls layout' false.
Proof. reflexivity. Qed.

Lemma validate_callback_args_ignores_layout args cls layout layout' :
  validate_callback_args args cls layout false
  = validate_callback_args args cls layout' false.
Proof.
  destruct args as [l | l | o]; simpl; try reflexivity;
    induction l as [|a l IH]; try reflexivity;
    rewrite !validate_args_loop_cons, IH; reflexivity.
Qed.

(** With [suppress_callback_exceptions] the layout plays no part: the
    declaration has the same outcome with any layout and with none. *)
Theorem suppressed_validation_ignores_layout :
  forall (app : App) (layout layout' : option Layout)
         (output inputs state : value),
    suppress_callback_exceptions app = true ->
    outcome (validate_callback layout output inputs state) app
    = outcome (validate_callback layout' output inputs state) app.
Proof.
  intros app layout layout' output inputs state Hs.
  rewrite !validate_callback_outcome. rewrite Hs. simpl negb.
  rewrite !andb_false_r.
  rewrite (validate_callback_args_ignores_layout _ Output layout layout').
  rewrite (validate_callback_args_ignores_layout _ Input layout layout').
  rewrite (validate_callback_args_ignores_layout _ State layout layout').
  reflexivity.
Qed.

Lemma suppressed_validation_ignores_layout_witness :
  outcome
    (validate_callback (Some sample_layout)
       (PyObject (dep Output "elsewhere" "children"))
       (PyList [dep Input "a" "nothing"]) (PyList []))
    (app_of true [])
  = outcome
      (validate_callback None (PyObject (dep Output "elsewhere" "children"))
         (PyList [dep Input "a" "nothing"]) (PyList []))
      (app_of true []).
Proof.
  apply (suppressed_validation_ignores_layout (app_of true [])
           (Some sample_layout) None
           (PyObject (dep Output "elsewhere" "children"))
           (PyList [dep Input "a" "nothing"]) (PyList [])).
  reflexivity.
Defined.

Lemma registered_binding_incl (app app' : App) (s : string) :
  incl (callback_map app) (callback_map app') ->
  registered_binding app s -> registered_binding app' s.
Proof. intros I [x [Hx M]]. exists x. split; [apply I; exact Hx | exact M]. Qed.

(** The callback map counts as a set, and it only ever refuses: a
    declaration accepted against a callback map is accepted against every
    map whose keys are among its keys, so against the same keys in another
    order or repeated, and a declaration refused stays refused when keys are
    added. *)
Theorem fewer_registrations_accept_more :
  forall (app app' : App) (layout : option Layout)
         (output inputs state : value),
    suppress_callback_exceptions app = suppress_callback_exceptions app' ->
    incl (callback_map app) (callback_map app') ->
    outcome (validate_callback layout output inputs state) app' = Ok tt ->
    outcome (validate_callback layout output inputs state) app = Ok tt.
Proof.
  intros app app' layout output inputs state Hs Hincl Hok.
  destruct (validate_callback_ok_inv _ _ _ _ _ Hok) as [outs [ins [sts P']]].
  assert (P : passes_declaration_checks app layout output inputs state
                outs ins sts)
    by (apply (passes_declaration_checks_frame app'); auto).
  destruct (registry_outcome _ _ _ _ _ _ _ _ P) as [[_ [y [Hy R]]] | [R _]];
    [|exact R].
  destruct (registry_outcome _ _ _ _ _ _ _ _ P') as [[R' _] | [_ N]];
    [congruence|].
  exfalso. apply N. exists y. split; [exact Hy|].
  exact (registered_binding_incl _ _ _ Hincl R).
Qed.

Lemma fewer_registrations_accept_more_witness :
  outcome
    (validate_callback None (PyObject (dep Output "a" "value"))
       (PyList [dep Input "b" "value"]) (PyList []))
    (app_of true ["c.value"])
  = Ok tt.
Proof.
  apply (fewer_registrations_accept_more
           (app_of true ["c.value"])
           (app_of true ["..x.p...y.q.."; "c.value"; "c.value"])
           None (PyObject (dep Output "a" "value"))
           (PyList [dep Input "b" "value"]) (PyList [])).
  - reflexivity.
  - intros x [<- | []]. right; left; reflexivity.
  - reflexivity.
Defined.

(** ** Taking the keys of the callback map apart *)

Lemma callbacks_single_key (x s : string) :
  In s (callbacks [x]) <->
  In s (if startswith ".." x then split "..." (slice_2_m2 x) else [x]).
Proof.
  unfold callbacks. rewrite nodup_In. simpl flat_map. rewrite app_nil_r.
  reflexivity.
Qed.

(** Taking apart undoes joining: a key made of the delimiter "..", pieces
    joined by "..." and the delimiter ".." again gives back its pieces, when
    there is a piece and in no piece a "." is followed by a "." or stands
    last; a key that does not begin with ".." is kept whole. *)
Theorem callbacks_of_joined_pieces :
  forall (parts : list string) (x s : string),
    (parts <> [] ->
     Forall (fun p => dots_apart p = true) parts ->
     (In s (callbacks [(".." ++ String.concat "..." parts ++ "..")%string])
      <-> In s parts)) /\
    (startswith ".." x = false -> (In s (callbacks [x]) <-> s = x)).
Proof.
  intros parts x s. split.
  - intros Hne F.
    rewrite callbacks_single_key, startswith_composite, slice_2_m2_composite.
    rewrite (split_concat parts Hne F). reflexivity.
  - intros E. rewrite callbacks_single_key, E. simpl.
    split; [intros [H | []]; auto | intros ->; left; reflexivity].
Qed.

Lemma callbacks_of_joined_pieces_witness :
  (In "b.value" (callbacks ["..a.children...b.value.."])
   <-> In "b.value" ["a.children"; "b.value"]) /\
  (In "a.children" (callbacks ["a.children"]) <-> "a.children" = "a.children").
Proof.
  split.
  - apply (proj1 (callbacks_of_joined_pieces ["a.children"; "b.value"]
                    "" "b.value")).
    + discriminate.
    + repeat constructor.
  - apply (proj2 (callbacks_of_joined_pieces [] "a.children" "a.children")).
    reflexivity.
Defined.

(** ** check_obsolete *)

(** [check_obsolete] returns only for no keyword at all; otherwise the first
    keyword alone decides: [ObsoleteKwargException] when it is one of the
    two retired names, a [TypeError] that names it when it is not, even if
    a retired name comes later. *)
Theorem check_obsolete_first_key :
  forall (kwargs : list string),
    (check_obsolete kwargs = Returns tt <-> kwargs = []) /\
    (forall key rest,
       kwargs = key :: rest ->
       check_obsolete kwargs = check_obsolete [key] /\
       (check_obsolete kwargs = Raises (ObsoleteKwargException key) <->
        key = "components_cache_max_age" \/ key = "static_folder") /\
       (check_obsolete kwargs =
          Raises (UnexpectedKeyword
                    ("Dash() got an unexpected keyword argument '" ++ key ++ "'"))
        <-> key <> "components_cache_max_age" /\ key <> "static_folder")).
Proof.
  intros kwargs. split.
  - destruct kwargs as [|key rest]; simpl.
    + split; reflexivity.
    + destruct (_ || _); split; discriminate.
  - intros key rest ->. split; [reflexivity|]. simpl.
    destruct (String.eqb_spec key "components_cache_max_age") as [E1 | N1];
      [|destruct (String.eqb_spec key "static_folder") as [E2 | N2]]; simpl.
    + split; split; auto; try discriminate. intros [H _]. contradiction.
    + split; split; auto; try discriminate. intros [_ H]. contradiction.
    + split; split; auto; try discriminate. intros [H | H]; contradiction.
Qed.

Lemma check_obsolete_first_key_witness :
  check_obsolete ["serve_locally"; "static_folder"] = check_obsolete ["serve_locally"]
  /\
  check_obsolete ["serve_locally"; "static_folder"] =
    Raises (UnexpectedKeyword
              "Dash() got an unexpected keyword argument 'serve_locally'").
Proof.
  destruct (proj2 (check_obsolete_first_key ["serve_locally"; "static_folder"])
              "serve_locally" ["static_folder"] eq_refl) as [H1 [_ H3]].
  split; [exact H1|]. apply H3. split; discriminate.
Defined.

(** ** validate_js_path *)

Lemma paths_of_None_iff registered_paths package_name :
  paths_of registered_paths package_name = None <->
  ~ In package_name (map fst registered_paths).
Proof.
  unfold paths_of.
  destruct (find (fun kv => String.eqb (fst kv) package_name) registered_paths)
    as [kv|] eqn:E.
  - apply find_some in E. destruct E as [Hin E]. apply String.eqb_eq in E.
    split; [discriminate|]. intros H. exfalso. apply H.
    rewrite <- E. apply in_map. exact Hin.
  - split; [|reflexivity]. intros _ Hin.
    apply in_map_iff in Hin. destruct Hin as [kv [Ek Hin]].
    pose proof (find_none _ _ E kv Hin) as F. simpl in F.
    rewrite Ek, String.eqb_refl in F. discriminate.
Qed.

(** [validate_js_path] returns exactly when the package is registered and
    the path is among its paths; an unregistered package is reported as
    such, whatever the path, and a registered package with another path as
    an invalid path. *)
Theorem validate_js_path_spec :
  forall (registered_paths : list (string * list string))
         (package_name path_in_package_dist : string),
    let run :=
      validate_js_path registered_paths package_name path_in_package_dist in
    (run = Returns tt <->
     exists paths, paths_of registered_paths package_name = Some paths /\
                   In path_in_package_dist paths) /\
    (run = Raises (DependencyException NotARegisteredLibrary) <->
     ~ In package_name (map fst registered_paths)) /\
    (run = Raises (DependencyException PathNotValid) <->
     exists paths, paths_of registered_paths package_name = Some paths /\
                   ~ In path_in_package_dist paths).
Proof.
  intros registered_paths package_name path run. subst run.
  unfold validate_js_path. rewrite <- paths_of_None_iff.
  destruct (paths_of registered_paths package_name) as [paths|].
  - destruct (existsb (String.eqb path) paths) eqn:E; simpl.
    + apply existsb_exists in E. destruct E as [x [Hx E]].
      apply String.eqb_eq in E. subst x.
      split; [|split]; split; try discriminate; try reflexivity.
      * intros _. exists paths. auto.
      * intros [ps [Eq N]]. inversion Eq; subst. contradiction.
    + assert (N : ~ In path paths).
      { intros Hin. apply not_true_iff_false in E. apply E.
        apply existsb_exists. exists path.
        split; [exact Hin | apply String.eqb_refl]. }
      split; [|split]; split; try discriminate; try reflexivity.
      * intros [ps [Eq Hin]]. inversion Eq; subst. contradiction.
      * intros _. exists paths. auto.
  - split; [|split]; split; try discriminate; try reflexivity.
    + intros [ps [Eq _]]. discriminate.
    + intros [ps [Eq _]]. discriminate.
Qed.

(** ** validate_index *)

Lemma missing_items_In re_search checks index i :
  In i (missing_items re_search checks index) <->
  exists check, In (check, i) checks /\ re_search check index = false.
Proof.
  unfold missing_items. rewrite in_map_iff. split.
  - intros [[check j] [E H]]. simpl in E. subst j.
    apply filter_In in H. destruct H as [Hin H]. simpl in H.
    exists check. split; [exact Hin | apply negb_true_iff; exact H].
  - intros [check [Hin H]]. exists (check, i). split; [reflexivity|].
    apply filter_In. split; [exact Hin | simpl; rewrite H; reflexivity].
Qed.

(** The list that [validate_index] builds is the list of the labels of the
    patterns that are not found, in the order of [checks]. *)
Lemma unmatched_labels_missing_items re_search index checks labels :
  unmatched_labels re_search index checks labels ->
  missing_items re_search checks index = labels.
Proof.
  unfold missing_items.
  induction 1 as [|check i checks labels Hs _ IH|check i checks labels Hs _ IH];
    simpl; [reflexivity | |]; rewrite Hs; simpl; rewrite IH; reflexivity.
Qed.

Lemma unmatched_labels_exist re_search index checks :
  exists labels, unmatched_labels re_search index checks labels.
Proof.
  induction checks as [|[check i] checks [labels IH]].
  - exists []. constructor.
  - destruct (re_search check index) eqn:Hs.
    + exists labels. apply unmatched_found; assumption.
    + exists (i :: labels). apply unmatched_missing; assumption.
Qed.

(** [validate_index] returns exactly when every pattern of [checks] is found
    in the index.  Otherwise it raises [InvalidIndexException], and its
    message lists the labels of the patterns that are not found, each as
    often as it stands in [checks] and in the order of [checks], separated
    by ", ": "Missing item l in name." for one label, "Missing items l1,
    l2, ... in name." for more. *)
Theorem validate_index_spec :
  forall (re_search : string -> string -> bool) (name : string)
         (checks : list (string * string)) (index : string),
    (validate_index re_search name checks index = Returns tt <->
     forall check i, In (check, i) checks -> re_search check index = true) /\
    (exists labels, unmatched_labels re_search index checks labels) /\
    (forall labels,
       unmatched_labels re_search index checks labels ->
       validate_index re_search name checks index =
       match labels with
       | [] => Returns tt
       | [i] =>
           Raises (InvalidIndexException
                     ("Missing item " ++ i ++ " in " ++ name ++ "."))
       | _ =>
           Raises (InvalidIndexException
                     ("Missing items " ++ String.concat ", " labels
                      ++ " in " ++ name ++ "."))
       end) /\
    (forall i, In i (missing_items re_search checks index) <->
               exists check, In (check, i) checks /\
                             re_search check index = false).
Proof.
  intros re_search name checks index. split; [|split; [|split]].
  - unfold validate_index.
    destruct (missing_items re_search checks index) as [|m ms] eqn:E; simpl.
    + split; [|reflexivity]. intros _ check i Hin.
      destruct (re_search check index) eqn:S; [reflexivity|].
      assert (M : In i (missing_items re_search checks index))
        by (apply missing_items_In; exists check; auto).
      rewrite E in M. contradiction.
    + split; [discriminate|]. intros H. exfalso.
      assert (M : In m (missing_items re_search checks index))
        by (rewrite E; left; reflexivity).
      apply missing_items_In in M. destruct M as [check [Hin S]].
      rewrite (H check m Hin) in S. discriminate.
  - apply unmatched_labels_exist.
  - intros labels U. unfold validate_index.
    rewrite (unmatched_labels_missing_items _ _ _ _ U).
    destruct labels as [|a [|b rest]]; reflexivity.
  - intros i. apply missing_items_In.
Qed.

Lemma validate_index_spec_witness :
  validate_index (fun check index => contains check index) "index"
    [("{%renderer%}", "{%renderer%}"); ("{%config%}", "{%config%}");
     ("{%scripts%}", "{%scripts%}"); ("{%renderer%}", "{%renderer%}")]
    "<body>{%config%}</body>"
  = Raises (InvalidIndexException
              "Missing items {%renderer%}, {%scripts%}, {%renderer%} in index.").
Proof.
  apply (proj1 (proj2 (proj2
           (validate_index_spec (fun check index => contains check index)
              "index"
              [("{%renderer%}", "{%renderer%}"); ("{%config%}", "{%config%}");
               ("{%scripts%}", "{%scripts%}"); ("{%renderer%}", "{%renderer%}")]
              "<body>{%config%}</body>")))
           ["{%renderer%}"; "{%scripts%}"; "{%renderer%}"]).
  apply unmatched_missing; [reflexivity|].
  apply unmatched_found; [reflexivity|].
  apply unmatched_missing; [reflexivity|].
  apply unmatched_missing; [reflexivity|].
  apply unmatched_nil.
Defined.

(** When exactly one pattern of [checks] is not found, the message is in the
    singular and names its label alone. *)
Theorem validate_index_one_missing :
  forall (re_search : string -> string -> bool) (name index : string)
         (before after : list (string * string)) (check i : string),
    (forall c, In c (before ++ after) -> re_search (fst c) index = true) ->
    re_search check index = false ->
    validate_index re_search name (before ++ (check, i) :: after) index =
    Raises (InvalidIndexException
              ("Missing item " ++ i ++ " in " ++ name ++ ".")).
Proof.
  intros re_search name index before after check i Hall Hc.
  assert (F : forall l : list (string * string),
             (forall c, In c l -> re_search (fst c) index = true) ->
                        filter (fun c => negb (re_search (fst c) index)) l = []).
  { induction l as [|c l IH]; intros H; [reflexivity|]. simpl.
    rewrite (H c (or_introl eq_refl)). simpl. apply IH.
    intros c' Hc'. apply H. right; exact Hc'. }
  assert (M : missing_items re_search (before ++ (check, i) :: after) index
              = [i]).
  { unfold missing_items. rewrite filter_app. simpl. rewrite Hc. simpl.
    rewrite (F before), (F after); [reflexivity | |];
      intros c Hin; apply Hall; apply in_or_app; auto. }
  unfold validate_index. rewrite M. reflexivity.
Qed.

Lemma validate_index_one_missing_witness :
  validate_index (fun check index => contains check index) "index"
    [("{%config%}", "{%config%}"); ("{%scripts%}", "{%scripts%}")]
    "<body>{%config%}</body>"
  = Raises (InvalidIndexException "Missing item {%scripts%} in index.").
Proof.
  apply (validate_index_one_missing (fun check index => contains check index)
           "index" "<body>{%config%}</body>"
           [("{%config%}", "{%config%}")] [] "{%scripts%}" "{%scripts%}").
  - intros c [<- | []]. reflexivity.
  - reflexivity.
Defined.

(** ** validate_layout *)

Lemma existsb_eqb_In (x : string) (l : list string) :
  existsb (String.eqb x) l = true <-> In x l.
Proof.
  rewrite existsb_exists. split.
  - intros [y [Hy E]]. apply String.eqb_eq in E. subst y. exact Hy.
  - intros H. exists x. split; [exact H | apply String.eqb_refl].
Qed.

(** The loop returns exactly when the non-empty ids it meets are pairwise
    distinct and none has been met before. *)
Lemma duplicate_id_loop_returns component_ids ids :
  duplicate_id_loop component_ids ids = Returns tt <->
  NoDup (filter truthy_str ids) /\
  forall i, In i (filter truthy_str ids) -> ~ In i component_ids.
Proof.
  revert component_ids. induction ids as [|c rest IH]; intros seen.
  - simpl. split; [intros _; split; [constructor | contradiction] | reflexivity].
  - simpl duplicate_id_loop. simpl filter.
    destruct (truthy_str c) eqn:T; simpl andb.
    + destruct (existsb (String.eqb c) seen) eqn:E.
      * apply existsb_eqb_In in E. split; [discriminate|].
        intros [_ H]. exfalso. apply (H c); [left; reflexivity | exact E].
      * assert (N : ~ In c seen)
          by (intros H; apply existsb_eqb_In in H; congruence).
        rewrite IH. rewrite NoDup_cons_iff. split.
        -- intros [ND H]. split; [split; [|exact ND]|].
           ++ intros Hin. apply (H c Hin). left; reflexivity.
           ++ intros i [<- | Hin]; [exact N|].
              intros Hs. apply (H i Hin). right; exact Hs.
        -- intros [[Nc ND] H]. split; [exact ND|].
           intros i Hin [<- | Hs]; [contradiction|].
           apply (H i); [right; exact Hin | exact Hs].
    + rewrite IH. split; intros [ND H]; (split; [exact ND|]).
      * intros i Hin Hs. apply (H i Hin). right; exact Hs.
      * intros i Hin [<- | Hs]; [|apply (H i Hin Hs)].
        apply filter_In in Hin. destruct Hin as [_ Hin]. congruence.
Qed.

Lemma validate_layout_returns_NoDup (A : Type) (layout : option A)
    (layout_value : Layout) :
  validate_layout layout layout_value = Returns tt <->
  layout <> None /\ NoDup (counted_ids layout_value).
Proof.
  unfold validate_layout, counted_ids.
  destruct layout as [a|].
  2:{ split; [discriminate | intros [H _]; contradiction]. }
  rewrite duplicate_id_loop_returns.
  destruct (layout_id layout_value) as [lid|]; simpl app; simpl filter.
  - destruct (truthy_str lid) eqn:T.
    + rewrite NoDup_cons_iff. split.
      * intros [ND H]. split; [discriminate|]. split; [|exact ND].
        intros Hin. apply (H lid Hin). left; reflexivity.
      * intros [_ [N ND]]. split; [exact ND|].
        intros i Hin [<- | []]. contradiction.
    + split.
      * intros [ND _]. split; [discriminate | exact ND].
      * intros [_ ND]. split; [exact ND | intros i _ []].
  - split.
    + intros [ND _]. split; [discriminate | exact ND].
    + intros [_ ND]. split; [exact ND | intros i _ []].
Qed.

(** [validate_layout] returns exactly when there is a layout and the
    non-empty ids of the tree, the id of the root included, are pairwise
    distinct; components without id or with an empty id may be many. *)
Theorem validate_layout_returns_iff :
  forall (A : Type) (layout : option A) (layout_value : Layout),
    validate_layout layout layout_value = Returns tt <->
    layout <> None /\ NoDup (counted_ids layout_value).
Proof. intros A layout layout_value. apply validate_layout_returns_NoDup. Qed.

Lemma duplicate_id_loop_raises component_ids ids e :
  duplicate_id_loop component_ids ids = Raises e ->
  exists i before after,
    e = DuplicateIdError i /\ truthy_str i = true /\
    ids = before ++ i :: after /\ (In i component_ids \/ In i before).
Proof.
  revert component_ids. induction ids as [|c rest IH]; intros seen;
    [discriminate|].
  simpl duplicate_id_loop.
  destruct (truthy_str c && existsb (String.eqb c) seen) eqn:G.
  - intros H. inversion H; subst. apply andb_true_iff in G.
    destruct G as [T E]. apply existsb_eqb_In in E.
    exists c, [], rest. auto.
  - intros H. destruct (IH _ H) as [i [before [after [-> [T [-> Hin]]]]]].
    exists i, (c :: before), after. repeat split; auto.
    destruct Hin as [[<- | Hs] | Hb]; [right; left; reflexivity | left; exact Hs
                                      | right; right; exact Hb].
Qed.

(** The only exceptions of [validate_layout] are [NoLayoutException], for
    no layout, and [DuplicateIdError]; the id that [DuplicateIdError]
    reports is not empty and stands at two places of the tree, the root
    being the first place. *)
Theorem validate_layout_raises :
  forall (A : Type) (layout : option A) (layout_value : Layout) (e : aux_exn),
    validate_layout layout layout_value = Raises e ->
    (e = NoLayoutException /\ layout = None) \/
    (exists i first between last,
       e = DuplicateIdError i /\ i <> "" /\ layout <> None /\
       match layout_id layout_value with
       | Some layout_id => [layout_id]
       | None => []
       end ++ traversed_ids layout_value
       = first ++ i :: between ++ i :: last).
Proof.
  intros A layout layout_value e. unfold validate_layout.
  destruct layout as [a|].
  2:{ intros H. inversion H. left. split; reflexivity. }
  intros H. right.
  destruct (duplicate_id_loop_raises _ _ _ H)
    as [i [before [after [-> [T [E Hin]]]]]].
  assert (Ni : i <> "") by (intros ->; discriminate).
  rewrite E. destruct Hin as [Hs | Hb].
  - destruct (layout_id layout_value) as [lid|]; [|contradiction].
    destruct (truthy_str lid); [|contradiction].
    destruct Hs as [<- | []].
    exists lid, [], before, after. repeat split; auto. discriminate.
  - apply in_split in Hb. destruct Hb as [b1 [b2 ->]].
    exists i, (match layout_id layout_value with
               | Some lid => [lid] | None => [] end ++ b1), b2, after.
    repeat split; auto; [discriminate|].
    rewrite <- !app_assoc. reflexivity.
Qed.

Lemma validate_layout_raises_witness :
  exists i first between last,
    DuplicateIdError "root" = DuplicateIdError i /\ i <> "" /\
    Some tt <> None /\
    ["root"; "a"; ""; ""; "root"] = first ++ i :: between ++ i :: last.
Proof.
  pose (node := {| available_properties := [] : list string;
                   available_wildcard_properties := [] |}).
  destruct (validate_layout_raises unit (Some tt)
              {| layout_id := Some "root"; layout_root := node;
                 layout_nodes := [("a", node); ("", node); ("", node);
                                  ("root", node)] |}
              (DuplicateIdError "root") eq_refl) as [[E _] | H].
  - discriminate.
  - exact H.
Defined.

(** After [validate_layout] has returned, ids name components: every
    descendant with a non-empty id is the component that [layout[id]] gives,
    and it does not carry the id of the root, so the argument checks look a
    binding up in the one component that carries its id. *)
Theorem validated_layout_lookup :
  forall (A : Type) (layout : option A) (layout_value : Layout)
         (id : string) (component : Component),
    validate_layout layout layout_value = Returns tt ->
    In (id, component) (layout_nodes layout_value) ->
    id <> "" ->
    layout_getitem id layout_value = Ok component /\
    layout_id layout_value <> Some id /\
    component_of layout_value id = Some component.
Proof.
  intros A layout layout_value id component Hv Hin Hid.
  apply validate_layout_returns_NoDup in Hv. destruct Hv as [_ ND].
  unfold counted_ids, traversed_ids in ND.
  assert (T : truthy_str id = true) by (destruct id; [contradiction | reflexivity]).
  rewrite filter_app in ND.
  assert (Nroot : layout_id layout_value <> Some id).
  { intros E. rewrite E in ND. simpl in ND. rewrite T in ND.
    apply NoDup_cons_iff in ND. destruct ND as [N _]. apply N.
    apply filter_In. split; [|exact T].
    apply (in_map fst _ _ Hin). }
  assert (ND' : NoDup (filter truthy_str (map fst (layout_nodes layout_value))))
    by (apply NoDup_app_remove_l in ND; exact ND).
  assert (G : layout_getitem id layout_value = Ok component).
  { unfold layout_getitem. clear ND Nroot.
    induction (layout_nodes layout_value) as [|[k c] nodes IH];
      [contradiction|].
    simpl find. simpl in ND'.
    destruct (String.eqb_spec k id) as [-> | Nk].
    - destruct Hin as [E | Hin]; [inversion E; reflexivity|].
      rewrite T in ND'. apply NoDup_cons_iff in ND'. destruct ND' as [N _].
      exfalso. apply N. apply filter_In. split; [|exact T].
      apply (in_map fst _ _ Hin).
    - destruct Hin as [E | Hin]; [inversion E; congruence|].
      apply IH; [exact Hin|].
      destruct (truthy_str k); [inversion ND'; assumption | exact ND']. }
  split; [exact G|]. split; [exact Nroot|].
  unfold component_of.
  replace (id_eqb (layout_id layout_value) id) with false.
  - unfold layout_getitem in G.
    destruct (find _ _) as [kv|]; [inversion G; reflexivity | discriminate].
  - symmetry. apply not_true_iff_false. intros E.
    apply id_eqb_true_iff in E. contradiction.
Qed.

Lemma validated_layout_lookup_witness :
  layout_getitem "a" sample_layout
  = Ok {| available_properties := ["value"];
          available_wildcard_properties := ["data-"] |}.
Proof.
  apply (validated_layout_lookup unit (Some tt) sample_layout "a" _ eq_refl).
  - left. reflexivity.
  - discriminate.
Defined.

(** ** The two messages of validate_multi_return *)

(** A returned value that is not a list or a tuple is reported as such
    before the outputs are looked at, so whatever [output] is; a list or
    tuple whose length differs from the length of [output] is reported with
    the number of values; and when [output] has no length, [len(output)] is
    a [TypeError]. *)
Theorem validate_multi_return_messages :
  forall (output output_value : value) (callback_id : string),
    (is_list_or_tuple output_value = false ->
     validate_multi_return output output_value callback_id
     = Err (InvalidCallbackReturnValue ExpectedListOrTuple)) /\
    (is_list_or_tuple output_value = true ->
     forall n, len output = Ok n ->
     validate_multi_return output output_value callback_id
     = if Nat.eqb (List.length (elements output_value)) n
       then Ok tt
       else Err (InvalidCallbackReturnValue InvalidNumberOfOutputValues)) /\
    (is_list_or_tuple output_value = true ->
     len output = Err TypeError ->
     validate_multi_return output output_value callback_id = Err TypeError).
Proof.
  intros output output_value callback_id. unfold validate_multi_return.
  split; [|split].
  - intros ->. reflexivity.
  - intros H n Hn. rewrite H, Hn. simpl negb. cbv iota.
    destruct output_value as [l | l | o]; try discriminate; simpl;
      destruct (Nat.eqb (List.length l) n); reflexivity.
  - intros H Hn. rewrite H, Hn.
    destruct output_value as [l | l | o]; try discriminate; reflexivity.
Qed.

Lemma validate_multi_return_messages_witness :
  validate_multi_return (PyObject (dep Output "a" "children"))
    (PyList [Plain (PyStr "one")]) "a.children"
  = Err TypeError.
Proof.
  apply (proj2 (proj2 (validate_multi_return_messages
                         (PyObject (dep Output "a" "children"))
                         (PyList [Plain (PyStr "one")]) "a.children")));
    reflexivity.
Defined.
